(** * pyspark.resource.profile: ResourceProfile and ResourceProfileBuilder

    A shallow embedding of [python/pyspark/resource/profile.py].

    Python dictionaries are mutable objects that the builder and the
    profiles it builds may share, so they live in a store and are
    handled through their addresses.  Builders are objects too (their
    attributes are rebound by the [clear*] methods and [require]
    returns [self]), so they live in the store as well.  Every call
    that crosses the py4j bridge is an operation of an abstract
    [RemoteSchedulingEngine]. *)

From stdpp Require Import gmap strings list fin_maps.

Open Scope string_scope.

(** ** Request value types *)

(** Modelled from the spec: the request value types of
    [pyspark.resource.requests], which this module imports.
    [TaskResourceRequest{resourceName, amount}] and
    [ExecutorResourceRequest{resourceName, amount, discoveryScript,
    vendor}].  The module never computes on an amount, it only stores
    and forwards it. *)
Record TaskResourceRequest := mkTaskResourceRequest {
  task_resourceName : string;
  task_amount : Z }.

Record ExecutorResourceRequest := mkExecutorResourceRequest {
  resourceName : string;
  amount : Z;
  discoveryScript : string;
  vendor : string }.

#[global] Instance TaskResourceRequest_eq_dec : EqDecision TaskResourceRequest.
Proof. solve_decision. Defined.

#[global] Instance ExecutorResourceRequest_eq_dec :
  EqDecision ExecutorResourceRequest.
Proof. solve_decision. Defined.

(** A dictionary keyed by resource name. *)
Abbreviation task_dict := (gmap string TaskResourceRequest).
Abbreviation exec_dict := (gmap string ExecutorResourceRequest).

(** Addresses of Python objects. *)
Abbreviation loc := positive.

(** ** Exceptions *)

Inductive exn :=
| RuntimeError (msg : string)
| AttributeError (attr : string)
| BridgeError
| InvalidReference.

(** The message [ResourceProfile.id] raises with. *)
Definition id_message : string :=
  "SparkContext must be created to get the id, get the id after adding the ResourceProfile to an RDD".

(** The spec's name for the error of [id] on an unregistered profile. *)
Definition NotRegisteredError : exn := RuntimeError id_message.

(** ** The remote engine *)

(** What the module asks of the JVM behind the py4j gateway.  A call
    either completes, with a result and a new engine state, or does
    not ([None]), which Python sees as a bridge error. *)
Class RemoteSchedulingEngine := {
  jvm_state : Type;
  JVMView : Type;
  JavaObject : Type;
  (* _jvm.org.apache.spark.resource.ResourceProfileBuilder() *)
  jnew_ResourceProfileBuilder :
    JVMView → jvm_state → option (JavaObject * jvm_state);
  (* jbuilder.require(jrequests) *)
  jrequire : JavaObject → JavaObject → jvm_state → option (unit * jvm_state);
  jclearExecutorResourceRequests :
    JavaObject → jvm_state → option (unit * jvm_state);
  jclearTaskResourceRequests :
    JavaObject → jvm_state → option (unit * jvm_state);
  (* taskResourcesJMap().items(), each value read through its getters *)
  jtaskResourcesJMap :
    JavaObject → jvm_state →
    option (list (string * TaskResourceRequest) * jvm_state);
  jexecutorResourcesJMap :
    JavaObject → jvm_state →
    option (list (string * ExecutorResourceRequest) * jvm_state);
  jbuild : JavaObject → jvm_state → option (JavaObject * jvm_state);
  jid : JavaObject → jvm_state → option (Z * jvm_state);
  (* TaskResourceRequests(_jvm, requests)._java_task_resource_requests *)
  jnew_TaskResourceRequests :
    JVMView → task_dict → jvm_state → option (JavaObject * jvm_state);
  (* ExecutorResourceRequests(_jvm, requests)._java_executor_resource_requests *)
  jnew_ExecutorResourceRequests :
    JVMView → exec_dict → jvm_state → option (JavaObject * jvm_state) }.

(** ** Objects, store and the monad of Python computations *)

Section Objects.
Context `{RemoteSchedulingEngine}.

(** Modelled from the spec: the grouping accumulators of
    [pyspark.resource.requests],
    [TaskResourceRequests{requests}] and
    [ExecutorResourceRequests{requests}], each local-only or backed
    by a remote handle. *)
Record TaskResourceRequests := mkTaskResourceRequests {
  _java_task_resource_requests : option JavaObject;
  task_requests : task_dict }.

Record ExecutorResourceRequests := mkExecutorResourceRequests {
  _java_executor_resource_requests : option JavaObject;
  executor_requests : exec_dict }.

(** What [require] may be handed: an instance of
    [TaskResourceRequests], or something else.  The something else
    is an [ExecutorResourceRequests] group or, as the annotation
    [Union[ExecutorResourceRequest, TaskResourceRequests]] allows, a
    single [ExecutorResourceRequest]. *)
Inductive other_request :=
| ExecutorGroup (g : ExecutorResourceRequests)
| SingleExecutorRequest (r : ExecutorResourceRequest).

Inductive resource_request :=
| IsTaskResourceRequests (g : TaskResourceRequests)
| NotTaskResourceRequests (o : other_request).

(** A builder as [ResourceProfileBuilder.__init__] leaves it: with a
    remote builder, or with two dictionaries of its own. *)
Inductive builder_obj :=
| DelegatedBuilder (_jvm : JVMView) (_java_resource_profile_builder : JavaObject)
| LocalBuilder (_executor_resource_requests _task_resource_requests : loc).

(** A profile as [ResourceProfile.__init__] leaves it.  Its
    attributes are never rebound afterwards. *)
Inductive profile_obj :=
| RemoteProfile (_java_resource_profile : JavaObject)
| LocalProfile (_executor_resource_requests _task_resource_requests : loc).

Record world := World {
  exec_heap : gmap loc exec_dict;
  task_heap : gmap loc task_dict;
  builder_heap : gmap loc builder_obj;
  SparkContext_jvm : option JVMView;   (* SparkContext._jvm *)
  engine : jvm_state }.

Definition set_exec_heap (h : gmap loc exec_dict) (w : world) : world :=
  World h (task_heap w) (builder_heap w) (SparkContext_jvm w) (engine w).
Definition set_task_heap (h : gmap loc task_dict) (w : world) : world :=
  World (exec_heap w) h (builder_heap w) (SparkContext_jvm w) (engine w).
Definition set_builder_heap (h : gmap loc builder_obj) (w : world) : world :=
  World (exec_heap w) (task_heap w) h (SparkContext_jvm w) (engine w).
Definition set_engine (j : jvm_state) (w : world) : world :=
  World (exec_heap w) (task_heap w) (builder_heap w) (SparkContext_jvm w) j.

Inductive outcome (A : Type) :=
| Returns (a : A) (w : world)
| Raises (e : exn) (w : world).
Arguments Returns {A} a w.
Arguments Raises {A} e w.

Definition M (A : Type) : Type := world → outcome A.

Definition ret {A} (a : A) : M A := λ w, Returns a w.
Definition raise {A} (e : exn) : M A := λ w, Raises e w.
Definition bind {A B} (c : M A) (k : A → M B) : M B :=
  λ w, match c w with
       | Returns a w' => k a w'
       | Raises e w' => Raises e w'
       end.

(** A call across the bridge. *)
Definition remote {A} (c : jvm_state → option (A * jvm_state)) : M A :=
  λ w, match c (engine w) with
       | Some (a, j) => Returns a (set_engine j w)
       | None => Raises BridgeError w
       end.

Definition get_SparkContext_jvm : M (option JVMView) :=
  λ w, Returns (SparkContext_jvm w) w.

(** [{}] and friends: a new dictionary object. *)
Definition new_exec_dict (d : exec_dict) : M loc :=
  λ w, let l := fresh (dom (exec_heap w)) in
       Returns l (set_exec_heap (<[l := d]> (exec_heap w)) w).
Definition new_task_dict (d : task_dict) : M loc :=
  λ w, let l := fresh (dom (task_heap w)) in
       Returns l (set_task_heap (<[l := d]> (task_heap w)) w).

Definition read_exec (l : loc) : M exec_dict :=
  λ w, match exec_heap w !! l with
       | Some d => Returns d w
       | None => Raises InvalidReference w
       end.
Definition read_task (l : loc) : M task_dict :=
  λ w, match task_heap w !! l with
       | Some d => Returns d w
       | None => Raises InvalidReference w
       end.

(** [d.update(other)]: every entry of [other] is stored in [d], in
    place; an entry of [d] under a key of [other] is replaced. *)
Definition exec_update (l : loc) (other : exec_dict) : M unit :=
  λ w, match exec_heap w !! l with
       | Some d => Returns tt (set_exec_heap (<[l := other ∪ d]> (exec_heap w)) w)
       | None => Raises InvalidReference w
       end.
Definition task_update (l : loc) (other : task_dict) : M unit :=
  λ w, match task_heap w !! l with
       | Some d => Returns tt (set_task_heap (<[l := other ∪ d]> (task_heap w)) w)
       | None => Raises InvalidReference w
       end.

(** [d[k] = v], in place. *)
Definition exec_setitem (l : loc) (k : string) (v : ExecutorResourceRequest) : M unit :=
  λ w, match exec_heap w !! l with
       | Some d => Returns tt (set_exec_heap (<[l := <[k := v]> d]> (exec_heap w)) w)
       | None => Raises InvalidReference w
       end.
Definition task_setitem (l : loc) (k : string) (v : TaskResourceRequest) : M unit :=
  λ w, match task_heap w !! l with
       | Some d => Returns tt (set_task_heap (<[l := <[k := v]> d]> (task_heap w)) w)
       | None => Raises InvalidReference w
       end.

(** [for x in xs: body] *)
Fixpoint for_each {A} (xs : list A) (body : A → M unit) : M unit :=
  match xs with
  | [] => ret tt
  | x :: xs' => bind (body x) (λ _, for_each xs' body)
  end.

Definition new_builder (b : builder_obj) : M loc :=
  λ w, let l := fresh (dom (builder_heap w)) in
       Returns l (set_builder_heap (<[l := b]> (builder_heap w)) w).
Definition get_builder (self : loc) : M builder_obj :=
  λ w, match builder_heap w !! self with
       | Some b => Returns b w
       | None => Raises InvalidReference w
       end.
(** Rebinding attributes of [self]. *)
Definition set_builder (self : loc) (b : builder_obj) : M unit :=
  λ w, match builder_heap w !! self with
       | Some _ => Returns tt (set_builder_heap (<[self := b]> (builder_heap w)) w)
       | None => Raises InvalidReference w
       end.
End Objects.

Arguments Returns {_ A} a w.
Arguments Raises {_ A} e w.

Notation "'let!' x ':=' c 'in' k" := (bind c (λ x, k))
  (at level 10, x name, c at level 100, k at level 200, only parsing).
Notation "'exec!' c 'in' k" := (bind c (λ _, k))
  (at level 10, c at level 100, k at level 200, only parsing).

(** ** class ResourceProfile *)

Module ResourceProfile.
Section ResourceProfile.
Context `{RemoteSchedulingEngine}.

(** [_exec_req or {}]: the argument itself unless it is [None] or
    an empty (falsy) dictionary, in which case a new [{}]. *)
Definition exec_req_or_empty (_exec_req : option loc) : M loc :=
  match _exec_req with
  | None => new_exec_dict ∅
  | Some l =>
      let! d := read_exec l in
      if decide (d = ∅) then new_exec_dict ∅ else ret l
  end.
Definition task_req_or_empty (_task_req : option loc) : M loc :=
  match _task_req with
  | None => new_task_dict ∅
  | Some l =>
      let! d := read_task l in
      if decide (d = ∅) then new_task_dict ∅ else ret l
  end.

Definition __init__ (_java_resource_profile : option JavaObject)
    (_exec_req _task_req : option loc) : M profile_obj :=
  match _java_resource_profile with
  | Some j => ret (RemoteProfile j)
  | None =>
      let! e := exec_req_or_empty _exec_req in
      let! t := task_req_or_empty _task_req in
      ret (LocalProfile e t)
  end.

Definition id (self : profile_obj) : M Z :=
  match self with
  | RemoteProfile j => remote (jid j)
  | LocalProfile _ _ => raise (RuntimeError id_message)
  end.

Definition taskResources (self : profile_obj) : M loc :=
  match self with
  | RemoteProfile j =>
      let! taskRes := remote (jtaskResourcesJMap j) in
      let! result := new_task_dict ∅ in
      exec! for_each taskRes (λ kv,
        task_setitem result kv.1
          (mkTaskResourceRequest (task_resourceName kv.2) (task_amount kv.2))) in
      ret result
  | LocalProfile _ t => ret t
  end.

Definition executorResources (self : profile_obj) : M loc :=
  match self with
  | RemoteProfile j =>
      let! execRes := remote (jexecutorResourcesJMap j) in
      let! result := new_exec_dict ∅ in
      exec! for_each execRes (λ kv,
        exec_setitem result kv.1
          (mkExecutorResourceRequest (resourceName kv.2) (amount kv.2)
             (discoveryScript kv.2) (vendor kv.2))) in
      ret result
  | LocalProfile e _ => ret e
  end.
End ResourceProfile.
End ResourceProfile.

(** ** class ResourceProfileBuilder *)

Module ResourceProfileBuilder.
Section ResourceProfileBuilder.
Context `{RemoteSchedulingEngine}.

Definition __init__ : M loc :=
  let! _jvm := get_SparkContext_jvm in
  match _jvm with
  | Some jvm =>
      let! jb := remote (jnew_ResourceProfileBuilder jvm) in
      new_builder (DelegatedBuilder jvm jb)
  | None =>
      let! e := new_exec_dict ∅ in
      let! t := new_task_dict ∅ in
      new_builder (LocalBuilder e t)
  end.

(** Attribute reads on an argument that is not a
    [TaskResourceRequests]: a single [ExecutorResourceRequest] has
    neither attribute. *)
Definition getattr_java_executor_resource_requests (o : other_request)
    : M (option JavaObject) :=
  match o with
  | ExecutorGroup g => ret (_java_executor_resource_requests g)
  | SingleExecutorRequest _ => raise (AttributeError "_java_executor_resource_requests")
  end.
Definition getattr_requests (o : other_request) : M exec_dict :=
  match o with
  | ExecutorGroup g => ret (executor_requests g)
  | SingleExecutorRequest _ => raise (AttributeError "requests")
  end.

Definition require (self : loc) (resourceRequest : resource_request) : M loc :=
  let! b := get_builder self in
  exec!
    match resourceRequest with
    | IsTaskResourceRequests g =>
        match b with
        | DelegatedBuilder jvm jb =>
            match _java_task_resource_requests g with
            | Some jreqs => remote (jrequire jb jreqs)
            | None =>
                let! taskReqs := remote (jnew_TaskResourceRequests jvm (task_requests g)) in
                remote (jrequire jb taskReqs)
            end
        | LocalBuilder _ t => task_update t (task_requests g)
        end
    | NotTaskResourceRequests o =>
        match b with
        | DelegatedBuilder jvm jb =>
            let! j := getattr_java_executor_resource_requests o in
            match j with
            | Some jreqs => remote (jrequire jb jreqs)
            | None =>
                let! reqs := getattr_requests o in
                let! execReqs := remote (jnew_ExecutorResourceRequests jvm reqs) in
                remote (jrequire jb execReqs)
            end
        | LocalBuilder e _ =>
            let! reqs := getattr_requests o in
            exec_update e reqs
        end
    end in
  ret self.

Definition clearExecutorResourceRequests (self : loc) : M unit :=
  let! b := get_builder self in
  match b with
  | DelegatedBuilder _ jb => remote (jclearExecutorResourceRequests jb)
  | LocalBuilder _ t =>
      let! e := new_exec_dict ∅ in
      set_builder self (LocalBuilder e t)
  end.

Definition clearTaskResourceRequests (self : loc) : M unit :=
  let! b := get_builder self in
  match b with
  | DelegatedBuilder _ jb => remote (jclearTaskResourceRequests jb)
  | LocalBuilder e _ =>
      let! t := new_task_dict ∅ in
      set_builder self (LocalBuilder e t)
  end.

Definition taskResources (self : loc) : M loc :=
  let! b := get_builder self in
  match b with
  | DelegatedBuilder _ jb =>
      let! taskRes := remote (jtaskResourcesJMap jb) in
      let! result := new_task_dict ∅ in
      exec! for_each taskRes (λ kv,
        task_setitem result kv.1
          (mkTaskResourceRequest (task_resourceName kv.2) (task_amount kv.2))) in
      ret result
  | LocalBuilder _ t => ret t
  end.

Definition executorResources (self : loc) : M loc :=
  let! b := get_builder self in
  match b with
  | DelegatedBuilder _ jb =>
      let! result := new_exec_dict ∅ in
      let! execRes := remote (jexecutorResourcesJMap jb) in
      exec! for_each execRes (λ kv,
        exec_setitem result kv.1
          (mkExecutorResourceRequest (resourceName kv.2) (amount kv.2)
             (discoveryScript kv.2) (vendor kv.2))) in
      ret result
  | LocalBuilder e _ => ret e
  end.

Definition build (self : loc) : M profile_obj :=
  let! b := get_builder self in
  match b with
  | DelegatedBuilder _ jb =>
      let! jresourceProfile := remote (jbuild jb) in
      ResourceProfile.__init__ (Some jresourceProfile) None None
  | LocalBuilder e t =>
      ResourceProfile.__init__ None (Some e) (Some t)
  end.
End ResourceProfileBuilder.
End ResourceProfileBuilder.

(** ** Observations and call sequences *)

Section Observations.
Context `{RemoteSchedulingEngine}.

(** Reading an accessor and looking at the dictionary it hands out. *)
Definition builder_executor_map (self : loc) : M exec_dict :=
  let! l := ResourceProfileBuilder.executorResources self in read_exec l.
Definition builder_task_map (self : loc) : M task_dict :=
  let! l := ResourceProfileBuilder.taskResources self in read_task l.
Definition profile_executor_map (p : profile_obj) : M exec_dict :=
  let! l := ResourceProfile.executorResources p in read_exec l.
Definition profile_task_map (p : profile_obj) : M task_dict :=
  let! l := ResourceProfile.taskResources p in read_task l.

(** The builder at [self] is in local mode and has accumulated the
    executor requirements [E] and the task requirements [T]. *)
Definition local_builder (w : world) (self : loc)
    (E : exec_dict) (T : task_dict) : Prop :=
  ∃ e t, builder_heap w !! self = Some (LocalBuilder e t)
         ∧ exec_heap w !! e = Some E ∧ task_heap w !! t = Some T.

(** The builder at [self] is in delegated mode. *)
Definition delegated_builder (w : world) (self : loc) : Prop :=
  ∃ jvm jb, builder_heap w !! self = Some (DelegatedBuilder jvm jb).

(** A requirement group, of either side, and the argument it is for
    [require]. *)
Inductive requirement_group :=
| TaskSide (g : TaskResourceRequests)
| ExecutorSide (g : ExecutorResourceRequests).

Definition as_argument (g : requirement_group) : resource_request :=
  match g with
  | TaskSide g => IsTaskResourceRequests g
  | ExecutorSide g => NotTaskResourceRequests (ExecutorGroup g)
  end.

(** [self.require(g1).require(g2)...] *)
Fixpoint require_all (self : loc) (gs : list requirement_group) : M loc :=
  match gs with
  | [] => ret self
  | g :: gs' =>
      let! b := ResourceProfileBuilder.require self (as_argument g) in
      require_all b gs'
  end.

(** The requirement maps a sequence of groups supplies to each side. *)
Fixpoint task_supplied (gs : list requirement_group) : list task_dict :=
  match gs with
  | [] => []
  | TaskSide g :: gs' => task_requests g :: task_supplied gs'
  | ExecutorSide _ :: gs' => task_supplied gs'
  end.
Fixpoint executor_supplied (gs : list requirement_group) : list exec_dict :=
  match gs with
  | [] => []
  | TaskSide _ :: gs' => executor_supplied gs'
  | ExecutorSide g :: gs' => executor_requests g :: executor_supplied gs'
  end.

(** The profile [p] is a local one whose two dictionaries hold [E]
    and [T]. *)
Definition local_profile (w : world) (p : profile_obj)
    (E : exec_dict) (T : task_dict) : Prop :=
  ∃ e t, p = LocalProfile e t
         ∧ exec_heap w !! e = Some E ∧ task_heap w !! t = Some T.

(** There is a builder at [self], of either mode. *)
Definition builder_at (w : world) (self : loc) : Prop :=
  (∃ E T, local_builder w self E T) ∨ delegated_builder w self.

(** What a computation returned, if it did. *)
Definition result_of {A} (o : outcome A) : option A :=
  match o with
  | Returns a _ => Some a
  | Raises _ _ => None
  end.

(** The world a computation left. *)
Definition world_of {A} (o : outcome A) : world :=
  match o with
  | Returns _ w => w
  | Raises _ w => w
  end.

(** A world with no Python object, as at interpreter start. *)
Definition initial_world (jvm : option JVMView) (s : jvm_state) : world :=
  World ∅ ∅ ∅ jvm s.
End Observations.

(** ** An engine that keeps its objects in a table *)

Module TableEngine.
Inductive jobject :=
| JBuilder (e : exec_dict) (t : task_dict)
| JTaskRequests (t : task_dict)
| JExecutorRequests (e : exec_dict)
| JProfile (id : Z) (e : exec_dict) (t : task_dict).

Record state := State {
  objects : gmap positive jobject;
  next_id : Z }.

Definition new_object (o : jobject) (s : state) : option (positive * state) :=
  let h := fresh (dom (objects s)) in
  Some (h, State (<[h := o]> (objects s)) (next_id s)).

Definition require (jb jr : positive) (s : state) : option (unit * state) :=
  match objects s !! jb, objects s !! jr with
  | Some (JBuilder e t), Some (JTaskRequests r) =>
      Some (tt, State (<[jb := JBuilder e (r ∪ t)]> (objects s)) (next_id s))
  | Some (JBuilder e t), Some (JExecutorRequests r) =>
      Some (tt, State (<[jb := JBuilder (r ∪ e) t]> (objects s)) (next_id s))
  | _, _ => None
  end.

Definition clearExecutor (jb : positive) (s : state) : option (unit * state) :=
  match objects s !! jb with
  | Some (JBuilder _ t) =>
      Some (tt, State (<[jb := JBuilder ∅ t]> (objects s)) (next_id s))
  | _ => None
  end.

Definition clearTask (jb : positive) (s : state) : option (unit * state) :=
  match objects s !! jb with
  | Some (JBuilder e _) =>
      Some (tt, State (<[jb := JBuilder e ∅]> (objects s)) (next_id s))
  | _ => None
  end.

Definition taskMap (h : positive) (s : state)
    : option (list (string * TaskResourceRequest) * state) :=
  match objects s !! h with
  | Some (JBuilder _ t) | Some (JProfile _ _ t) => Some (map_to_list t, s)
  | _ => None
  end.

Definition executorMap (h : positive) (s : state)
    : option (list (string * ExecutorResourceRequest) * state) :=
  match objects s !! h with
  | Some (JBuilder e _) | Some (JProfile _ e _) => Some (map_to_list e, s)
  | _ => None
  end.

Definition build (jb : positive) (s : state) : option (positive * state) :=
  match objects s !! jb with
  | Some (JBuilder e t) =>
      let h := fresh (dom (objects s)) in
      Some (h, State (<[h := JProfile (next_id s) e t]> (objects s))
                     (next_id s + 1))
  | _ => None
  end.

Definition id (h : positive) (s : state) : option (Z * state) :=
  match objects s !! h with
  | Some (JProfile i _ _) => Some (i, s)
  | _ => None
  end.

#[export] Instance table_engine : RemoteSchedulingEngine := {|
  jvm_state := state;
  JVMView := unit;
  JavaObject := positive;
  jnew_ResourceProfileBuilder := λ _, new_object (JBuilder ∅ ∅);
  jrequire := require;
  jclearExecutorResourceRequests := clearExecutor;
  jclearTaskResourceRequests := clearTask;
  jtaskResourcesJMap := taskMap;
  jexecutorResourcesJMap := executorMap;
  jbuild := build;
  jid := id;
  jnew_TaskResourceRequests := λ _ r, new_object (JTaskRequests r);
  jnew_ExecutorResourceRequests := λ _ r, new_object (JExecutorRequests r) |}.

Definition empty : state := State ∅ 0.
End TableEngine.

(** ** Concrete requests and scenarios *)

Section Scenarios.
#[local] Existing Instance TableEngine.table_engine.

Definition gpu_task : TaskResourceRequests :=
  mkTaskResourceRequests None {[ "gpu" := mkTaskResourceRequest "gpu" 1 ]}.
Definition cpus_task : TaskResourceRequests :=
  mkTaskResourceRequests None {[ "cpus" := mkTaskResourceRequest "cpus" 2 ]}.
Definition gpu2_task : TaskResourceRequests :=
  mkTaskResourceRequests None {[ "gpu" := mkTaskResourceRequest "gpu" 4 ]}.
Definition gpu_executor : ExecutorResourceRequests :=
  mkExecutorResourceRequests None
    {[ "gpu" := mkExecutorResourceRequest "gpu" 2 "" "nvidia.com" ]}.
Definition cores_executor : ExecutorResourceRequests :=
  mkExecutorResourceRequests None
    {[ "cores" := mkExecutorResourceRequest "cores" 8 "" "" ]}.

(** No session: builders are in local mode. *)
Definition local_start : world := initial_world None TableEngine.empty.
(** A running session: builders are in delegated mode. *)
Definition session_start : world := initial_world (Some tt) TableEngine.empty.

(** [b = ResourceProfileBuilder(); b.require(gpu_task); p1 = b.build;
    before = p1.taskResources (its contents); b.require(cpus_task);
    p2 = b.build; after = p1.taskResources (its contents)] *)
Definition build_require_build : M (task_dict * task_dict * task_dict) :=
  let! b := ResourceProfileBuilder.__init__ in
  let! _ := ResourceProfileBuilder.require b (IsTaskResourceRequests gpu_task) in
  let! p1 := ResourceProfileBuilder.build b in
  let! before := profile_task_map p1 in
  let! _ := ResourceProfileBuilder.require b (IsTaskResourceRequests cpus_task) in
  let! p2 := ResourceProfileBuilder.build b in
  let! after := profile_task_map p1 in
  let! second := profile_task_map p2 in
  ret (before, after, second).
(** [b = ResourceProfileBuilder(); b.require(gpu_executor);
    b.require(gpu_task)], without and with a session. *)
Definition accumulate : M loc :=
  let! b := ResourceProfileBuilder.__init__ in
  let! _ := ResourceProfileBuilder.require b
              (NotTaskResourceRequests (ExecutorGroup gpu_executor)) in
  ResourceProfileBuilder.require b (IsTaskResourceRequests gpu_task).

Definition accumulated : world := world_of (accumulate local_start).
Definition accumulated_remotely : world := world_of (accumulate session_start).

(** The same, followed by [b.build], with a session. *)
Definition registered : world :=
  world_of ((let! b := accumulate in ResourceProfileBuilder.build b) session_start).
End Scenarios.

(** ** Calls on a builder *)

Section Calls.
Context `{RemoteSchedulingEngine}.

(** A method call or property read on a builder. *)
Inductive builder_call :=
| CallRequire (resourceRequest : resource_request)
| CallClearExecutorResourceRequests
| CallClearTaskResourceRequests
| CallTaskResources
| CallExecutorResources
| CallBuild.

(** The call as a statement: what it returns is dropped. *)
Definition run_call (self : loc) (c : builder_call) : M unit :=
  match c with
  | CallRequire r => exec! ResourceProfileBuilder.require self r in ret tt
  | CallClearExecutorResourceRequests =>
      ResourceProfileBuilder.clearExecutorResourceRequests self
  | CallClearTaskResourceRequests =>
      ResourceProfileBuilder.clearTaskResourceRequests self
  | CallTaskResources => exec! ResourceProfileBuilder.taskResources self in ret tt
  | CallExecutorResources =>
      exec! ResourceProfileBuilder.executorResources self in ret tt
  | CallBuild => exec! ResourceProfileBuilder.build self in ret tt
  end.

Fixpoint run_calls (self : loc) (cs : list builder_call) : M unit :=
  match cs with
  | [] => ret tt
  | c :: cs' => exec! run_call self c in run_calls self cs'
  end.

(** The argument of a [require] call, if any, is a requirement group. *)
Definition group_call (c : builder_call) : Prop :=
  match c with
  | CallRequire (NotTaskResourceRequests (SingleExecutorRequest _)) => False
  | _ => True
  end.

(** What a call does to the pair of maps a local-mode builder holds. *)
Definition merge_call (s : exec_dict * task_dict) (c : builder_call)
    : exec_dict * task_dict :=
  match c with
  | CallRequire (IsTaskResourceRequests g) => (s.1, task_requests g ∪ s.2)
  | CallRequire (NotTaskResourceRequests (ExecutorGroup g)) =>
      (executor_requests g ∪ s.1, s.2)
  | CallClearExecutorResourceRequests => (∅, s.2)
  | CallClearTaskResourceRequests => (s.1, ∅)
  | _ => s
  end.

(** Every local-mode builder of the store has its two dictionaries. *)
Definition well_formed (w : world) : Prop :=
  ∀ b e t, builder_heap w !! b = Some (LocalBuilder e t) →
           is_Some (exec_heap w !! e) ∧ is_Some (task_heap w !! t).

(** Two builder objects of the same mode: the same remote builder, or
    local both. *)
Definition same_mode (o o' : builder_obj) : Prop :=
  match o with
  | DelegatedBuilder jvm jb => o' = DelegatedBuilder jvm jb
  | LocalBuilder _ _ => ∃ e t, o' = LocalBuilder e t
  end.

(** Local-mode builders at [b] and [b'] that share no dictionary. *)
Definition separate_builders (w : world) (b b' : loc) : Prop :=
  ∃ e t e' t', builder_heap w !! b = Some (LocalBuilder e t)
               ∧ builder_heap w !! b' = Some (LocalBuilder e' t')
               ∧ b ≠ b' ∧ e ≠ e' ∧ t ≠ t'.

(** The dictionary a [for] loop of [d[k] = v] over [items] leaves,
    starting from [d]. *)
Definition store_items {V} (items : list (string * V)) (d : gmap string V)
    : gmap string V :=
  foldl (λ acc kv, <[kv.1 := kv.2]> acc) d items.
(** What a call on the builder at [self] may do to the store: the
    dictionaries that exist go on existing, and the only builder
    attributes rebound are the dictionaries of a local-mode [self]. *)
Definition call_effect (self : loc) (w w' : world) : Prop :=
  dom (exec_heap w) ⊆ dom (exec_heap w')
  ∧ dom (task_heap w) ⊆ dom (task_heap w')
  ∧ SparkContext_jvm w' = SparkContext_jvm w
  ∧ (builder_heap w' = builder_heap w
     ∨ ∃ e t e' t',
         builder_heap w !! self = Some (LocalBuilder e t)
         ∧ builder_heap w' = <[self := LocalBuilder e' t']> (builder_heap w)
         ∧ (e' = e ∨ e' ∈ dom (exec_heap w'))
         ∧ (t' = t ∨ t' ∈ dom (task_heap w'))).

End Calls.

Section CallScenarios.
#[local] Existing Instance TableEngine.table_engine.

(** Some calls, on either side and of every kind but a failing one. *)
Definition sample_calls : list builder_call :=
  [ CallRequire (IsTaskResourceRequests cpus_task);
    CallBuild;
    CallClearExecutorResourceRequests;
    CallRequire (NotTaskResourceRequests (ExecutorGroup cores_executor));
    CallTaskResources ].

(** The world of [registered] once the session has been torn down:
    the engine no longer knows any of the handles Python holds. *)
Definition torn_down : world := set_engine TableEngine.empty registered.
End CallScenarios.

(** ** Stepping local-mode builders *)

Ltac unfold_python :=
  unfold builder_executor_map, builder_task_map, profile_executor_map,
    profile_task_map,
    ResourceProfileBuilder.executorResources,
    ResourceProfileBuilder.taskResources,
    ResourceProfileBuilder.require,
    ResourceProfileBuilder.clearExecutorResourceRequests,
    ResourceProfileBuilder.clearTaskResourceRequests,
    ResourceProfileBuilder.build,
    ResourceProfileBuilder.getattr_requests,
    ResourceProfileBuilder.getattr_java_executor_resource_requests,
    ResourceProfile.__init__, ResourceProfile.exec_req_or_empty,
    ResourceProfile.task_req_or_empty,
    ResourceProfile.executorResources, ResourceProfile.taskResources,
    ResourceProfile.id,
    bind, ret, raise, get_builder, set_builder, read_exec, read_task,
    exec_update, task_update, new_exec_dict, new_task_dict, remote.

Section Steps.
Context `{RemoteSchedulingEngine}.
Implicit Types (w : world) (self : loc) (E : exec_dict) (T : task_dict).

Lemma fresh_lookup_ne {V} (h : gmap loc V) (l : loc) (v : V) :
  h !! l = Some v → fresh (dom h) ≠ l.
Proof.
  intros Hl <-. apply (is_fresh (dom h)). apply elem_of_dom. eauto.
Qed.

Lemma local_builder_reads w self E T :
  local_builder w self E T →
  builder_executor_map self w = Returns E w
  ∧ builder_task_map self w = Returns T w.
Proof.
  intros (e & t & Hb & He & Ht). unfold_python.
  rewrite Hb. simpl. by rewrite He, Ht.
Qed.

Lemma require_task_local w self E T (g : TaskResourceRequests) :
  local_builder w self E T →
  ∃ w', ResourceProfileBuilder.require self (IsTaskResourceRequests g) w
        = Returns self w'
        ∧ local_builder w' self E (task_requests g ∪ T).
Proof.
  intros (e & t & Hb & He & Ht). unfold_python.
  rewrite Hb. simpl. rewrite Ht. eexists; split; [done|].
  exists e, t. simpl. by rewrite lookup_insert_eq.
Qed.

Lemma require_executor_local w self E T (g : ExecutorResourceRequests) :
  local_builder w self E T →
  ∃ w', ResourceProfileBuilder.require self
          (NotTaskResourceRequests (ExecutorGroup g)) w
        = Returns self w'
        ∧ local_builder w' self (executor_requests g ∪ E) T.
Proof.
  intros (e & t & Hb & He & Ht). unfold_python.
  rewrite Hb. simpl. rewrite He. eexists; split; [done|].
  exists e, t. simpl. by rewrite lookup_insert_eq.
Qed.

Lemma clearExecutor_local w self E T :
  local_builder w self E T →
  ∃ w', ResourceProfileBuilder.clearExecutorResourceRequests self w
        = Returns tt w'
        ∧ local_builder w' self ∅ T.
Proof.
  intros (e & t & Hb & He & Ht). unfold_python.
  rewrite Hb. simpl. rewrite Hb. eexists; split; [done|].
  eexists _, t. simpl. by rewrite !lookup_insert_eq.
Qed.

Lemma clearTask_local w self E T :
  local_builder w self E T →
  ∃ w', ResourceProfileBuilder.clearTaskResourceRequests self w
        = Returns tt w'
        ∧ local_builder w' self E ∅.
Proof.
  intros (e & t & Hb & He & Ht). unfold_python.
  rewrite Hb. simpl. rewrite Hb. eexists; split; [done|].
  eexists e, _. simpl. by rewrite !lookup_insert_eq.
Qed.

Lemma local_profile_reads w p E T :
  local_profile w p E T →
  profile_executor_map p w = Returns E w
  ∧ profile_task_map p w = Returns T w.
Proof.
  intros (e & t & -> & He & Ht). unfold_python. by rewrite He, Ht.
Qed.

Lemma build_local w self E T :
  local_builder w self E T →
  ∃ p w', ResourceProfileBuilder.build self w = Returns p w'
          ∧ local_builder w' self E T
          ∧ local_profile w' p E T.
Proof.
  intros (e & t & Hb & He & Ht). unfold_python.
  rewrite Hb. simpl. rewrite He.
  destruct (decide (E = ∅)) as [->|HE]; simpl; rewrite Ht;
    destruct (decide (T = ∅)) as [->|HT]; simpl;
    (eexists _, _; split; [done|]; split;
     [exists e, t | eexists _, _; split; [done|]]; simpl;
     rewrite ?lookup_insert_eq, ?lookup_insert_ne
       by (by eapply fresh_lookup_ne); done).
Qed.
End Steps.

Lemma update_all_distinct {V} (ms : list (gmap string V)) (m0 : gmap string V) :
map_disjoint_list ms →
foldl (λ acc m, m ∪ acc) m0 ms = ⋃ ms ∪ m0.
Proof.
revert m0. induction ms as [|m ms IH]; intros m0 Hd; simpl.
- by rewrite (left_id_L ∅ (∪)).
- apply map_disjoint_list_cons in Hd as [Hall Hd].
  rewrite IH by done.
  rewrite (assoc_L (∪)). f_equal.
  apply map_union_comm. by apply map_disjoint_union_list_l.
Qed.

Section Sequences.
Context `{RemoteSchedulingEngine}.
Implicit Types (w : world) (self : loc) (E : exec_dict) (T : task_dict).

Lemma require_all_local (gs : list requirement_group) w self E T :
local_builder w self E T →
∃ w', require_all self gs w = Returns self w'
      ∧ local_builder w' self
          (foldl (λ acc m, m ∪ acc) E (executor_supplied gs))
          (foldl (λ acc m, m ∪ acc) T (task_supplied gs)).
Proof.
revert w E T. induction gs as [|[g|g] gs IH]; intros w E T Hb; simpl.
- by exists w.
- destruct (require_task_local w self E T g Hb) as (w1 & Hr & Hb1).
  destruct (IH _ _ _ Hb1) as (w' & Hr' & Hb').
  exists w'. split; [|done]. unfold bind. by rewrite Hr.
- destruct (require_executor_local w self E T g Hb) as (w1 & Hr & Hb1).
  destruct (IH _ _ _ Hb1) as (w' & Hr' & Hb').
  exists w'. split; [|done]. unfold bind. by rewrite Hr.
Qed.
End Sequences.

(** ** Properties of the module *)

Section Claims.
Context `{RemoteSchedulingEngine}.
Implicit Types (w : world) (self : loc) (E : exec_dict) (T : task_dict).

(** C2, as amended.  Reading [id] on a profile built in local mode
    raises the not-registered error, whatever the world it is read
    in: on any [LocalProfile], and so on the profile [build] returns
    for a local-mode builder.  Reading [id] on a profile backed by a
    remote handle never raises that error: it is the engine's [id]
    call on the handle, returning the identity the engine reports
    when the call completes and raising the bridge error when it
    does not. *)
Theorem id_local_raises_remote_forwards :
  (∀ e t w, ResourceProfile.id (LocalProfile e t) w = Raises NotRegisteredError w)
  ∧ (∀ w self E T, local_builder w self E T →
       ∃ p w', ResourceProfileBuilder.build self w = Returns p w'
               ∧ ∀ w'', ResourceProfile.id p w'' = Raises NotRegisteredError w'')
  ∧ (∀ j w,
       ResourceProfile.id (RemoteProfile j) w
       = match jid j (engine w) with
         | Some (n, s') => Returns n (set_engine s' w)
         | None => Raises BridgeError w
         end).
Proof.
  split; [done|]. split.
  - intros w self E T Hb.
    destruct (build_local w self E T Hb) as (p & w' & Hp & _ & (e & t & -> & _)).
    by exists (LocalProfile e t), w'.
  - intros j w. unfold_python. by destruct (jid j (engine w)) as [[n s']|].
Qed.

(** C3.  On a local-mode builder holding [E] and [T], a chain of
    [require] calls whose groups use pairwise distinct resource names
    on each side returns the builder, and afterwards the accessors
    read the union of the supplied requirement maps, keyed by name,
    on top of what the builder held ([E] and [T] are empty for a new
    builder). *)
Theorem require_sequence_is_union (gs : list requirement_group) w self E T :
  local_builder w self E T →
  map_disjoint_list (executor_supplied gs) →
  map_disjoint_list (task_supplied gs) →
  ∃ w', require_all self gs w = Returns self w'
        ∧ builder_executor_map self w' = Returns (⋃ executor_supplied gs ∪ E) w'
        ∧ builder_task_map self w' = Returns (⋃ task_supplied gs ∪ T) w'.
Proof.
  intros Hb He Ht.
  destruct (require_all_local gs w self E T Hb) as (w' & Hr & Hb').
  rewrite !update_all_distinct in Hb' by done.
  exists w'. split; [done|]. by apply local_builder_reads.
Qed.

(** C4.  On a local-mode builder, after two [require] calls for the
    same side, every name of the later group reads the later group's
    requirement, also when the earlier group supplied that name, and
    every other name reads what it read after the earlier call. *)
Theorem require_last_write_wins w self E T :
  local_builder w self E T →
  (∀ g1 g2 : TaskResourceRequests,
     ∃ w1 w2 T1 T2,
       ResourceProfileBuilder.require self (IsTaskResourceRequests g1) w = Returns self w1
       ∧ builder_task_map self w1 = Returns T1 w1
       ∧ ResourceProfileBuilder.require self (IsTaskResourceRequests g2) w1 = Returns self w2
       ∧ builder_task_map self w2 = Returns T2 w2
       ∧ (∀ k v, task_requests g1 !! k = Some v → T1 !! k = Some v)
       ∧ (∀ k v, task_requests g2 !! k = Some v → T2 !! k = Some v)
       ∧ (∀ k, task_requests g2 !! k = None → T2 !! k = T1 !! k))
  ∧ (∀ g1 g2 : ExecutorResourceRequests,
     ∃ w1 w2 E1 E2,
       ResourceProfileBuilder.require self
         (NotTaskResourceRequests (ExecutorGroup g1)) w = Returns self w1
       ∧ builder_executor_map self w1 = Returns E1 w1
       ∧ ResourceProfileBuilder.require self
           (NotTaskResourceRequests (ExecutorGroup g2)) w1 = Returns self w2
       ∧ builder_executor_map self w2 = Returns E2 w2
       ∧ (∀ k v, executor_requests g1 !! k = Some v → E1 !! k = Some v)
       ∧ (∀ k v, executor_requests g2 !! k = Some v → E2 !! k = Some v)
       ∧ (∀ k, executor_requests g2 !! k = None → E2 !! k = E1 !! k)).
Proof.
  intros Hb. split; intros g1 g2.
  - destruct (require_task_local w self E T g1 Hb) as (w1 & Hr1 & Hb1).
    destruct (require_task_local w1 self _ _ g2 Hb1) as (w2 & Hr2 & Hb2).
    exists w1, w2, (task_requests g1 ∪ T),
      (task_requests g2 ∪ (task_requests g1 ∪ T)).
    split; [done|]. split; [by apply (local_builder_reads _ _ _ _ Hb1)|].
    split; [done|]. split; [by apply (local_builder_reads _ _ _ _ Hb2)|].
    split; [|split].
    + intros k v Hk. by apply lookup_union_Some_l.
    + intros k v Hk. by apply lookup_union_Some_l.
    + intros k Hk. by apply lookup_union_r.
  - destruct (require_executor_local w self E T g1 Hb) as (w1 & Hr1 & Hb1).
    destruct (require_executor_local w1 self _ _ g2 Hb1) as (w2 & Hr2 & Hb2).
    exists w1, w2, (executor_requests g1 ∪ E),
      (executor_requests g2 ∪ (executor_requests g1 ∪ E)).
    split; [done|]. split; [by apply (local_builder_reads _ _ _ _ Hb1)|].
    split; [done|]. split; [by apply (local_builder_reads _ _ _ _ Hb2)|].
    split; [|split].
    + intros k v Hk. by apply lookup_union_Some_l.
    + intros k v Hk. by apply lookup_union_Some_l.
    + intros k Hk. by apply lookup_union_r.
Qed.

(** C5.  On a local-mode builder holding [E] and [T],
    [clearExecutorResourceRequests] makes [executorResources] read
    the empty mapping and leaves [taskResources] reading [T];
    [clearTaskResourceRequests] makes [taskResources] read the empty
    mapping and leaves [executorResources] reading [E]. *)
Theorem clear_empties_one_side w self E T :
  local_builder w self E T →
  (∃ w', ResourceProfileBuilder.clearExecutorResourceRequests self w = Returns tt w'
         ∧ builder_executor_map self w' = Returns ∅ w'
         ∧ builder_task_map self w' = Returns T w')
  ∧ (∃ w', ResourceProfileBuilder.clearTaskResourceRequests self w = Returns tt w'
           ∧ builder_task_map self w' = Returns ∅ w'
           ∧ builder_executor_map self w' = Returns E w').
Proof.
  intros Hb. split.
  - destruct (clearExecutor_local w self E T Hb) as (w' & Hc & Hb').
    exists w'. split; [done|]. by apply local_builder_reads.
  - destruct (clearTask_local w self E T Hb) as (w' & Hc & Hb').
    exists w'. split; [done|]. by apply local_builder_reads in Hb' as [? ?].
Qed.

(** C6.  On a local-mode builder holding [E] and [T], [require] with
    a task group merges the group into the task side and leaves the
    executor side reading [E]; [require] with an executor group
    merges the group into the executor side and leaves the task side
    reading [T]. *)
Theorem require_updates_one_side w self E T
    (gt : TaskResourceRequests) (ge : ExecutorResourceRequests) :
  local_builder w self E T →
  (∃ w', ResourceProfileBuilder.require self (IsTaskResourceRequests gt) w
         = Returns self w'
         ∧ builder_task_map self w' = Returns (task_requests gt ∪ T) w'
         ∧ builder_executor_map self w' = Returns E w')
  ∧ (∃ w', ResourceProfileBuilder.require self
             (NotTaskResourceRequests (ExecutorGroup ge)) w
           = Returns self w'
           ∧ builder_executor_map self w' = Returns (executor_requests ge ∪ E) w'
           ∧ builder_task_map self w' = Returns T w').
Proof.
  intros Hb. split.
  - destruct (require_task_local w self E T gt Hb) as (w' & Hr & Hb').
    exists w'. split; [done|]. by apply local_builder_reads in Hb' as [? ?].
  - destruct (require_executor_local w self E T ge Hb) as (w' & Hr & Hb').
    exists w'. split; [done|]. by apply local_builder_reads.
Qed.

(** C7.  On a local-mode builder holding [E] and [T], [build] returns
    a profile whose [executorResources] reads [E] and whose
    [taskResources] reads [T]. *)
Theorem build_reflects_builder w self E T :
  local_builder w self E T →
  ∃ p w', ResourceProfileBuilder.build self w = Returns p w'
          ∧ profile_executor_map p w' = Returns E w'
          ∧ profile_task_map p w' = Returns T w'.
Proof.
  intros Hb.
  destruct (build_local w self E T Hb) as (p & w' & Hp & _ & Hl).
  exists p, w'. split; [done|]. by apply local_profile_reads.
Qed.

(** C8.  On a builder of either mode, [require] with a requirement
    group returns the very builder it was called on; the only other
    outcome is the bridge error of a remote call, on a delegated
    builder. *)
Theorem require_returns_self w self (g : requirement_group) :
  builder_at w self →
  match ResourceProfileBuilder.require self (as_argument g) w with
  | Returns r _ => r = self
  | Raises ex _ => ex = BridgeError ∧ delegated_builder w self
  end.
Proof.
  intros [(E & T & Hb)|Hd].
  - destruct g as [g|g]; simpl.
    + destruct (require_task_local w self E T g Hb) as (w' & -> & _). done.
    + destruct (require_executor_local w self E T g Hb) as (w' & -> & _). done.
  - pose proof Hd as (jvm & jb & Hb). unfold_python. rewrite Hb.
    destruct g as [g|g]; simpl.
    + destruct (_java_task_resource_requests g) as [jr|].
      * by destruct (jrequire jb jr (engine w)) as [[[] s]|].
      * destruct (jnew_TaskResourceRequests jvm (task_requests g) (engine w))
          as [[jr s]|]; simpl; [|done].
        by destruct (jrequire jb jr s) as [[[] s']|].
    + destruct (_java_executor_resource_requests g) as [jr|].
      * by destruct (jrequire jb jr (engine w)) as [[[] s]|].
      * destruct (jnew_ExecutorResourceRequests jvm (executor_requests g) (engine w))
          as [[jr s]|]; simpl; [|done].
        by destruct (jrequire jb jr s) as [[[] s']|].
Qed.

(** C9.  On a local-mode builder, the accessors read the same
    contents right before and right after a [build] call. *)
Theorem build_leaves_builder w self E T :
  local_builder w self E T →
  builder_executor_map self w = Returns E w
  ∧ builder_task_map self w = Returns T w
  ∧ ∃ p w', ResourceProfileBuilder.build self w = Returns p w'
            ∧ builder_executor_map self w' = Returns E w'
            ∧ builder_task_map self w' = Returns T w'.
Proof.
  intros Hb.
  destruct (local_builder_reads w self E T Hb) as [He Ht].
  split; [done|]. split; [done|].
  destruct (build_local w self E T Hb) as (p & w' & Hp & Hb' & _).
  exists p, w'. split; [done|]. by apply local_builder_reads.
Qed.

(** C10.  [require] takes the executor branch for every argument that
    is not an instance of [TaskResourceRequests], and only for those.
    On a local-mode builder the executor branch reads the argument's
    [requests] and merges them into the executor side, leaving the
    task side alone, and it raises what that read raises.  A single
    [ExecutorResourceRequest] has no [requests] (nor a remote handle
    attribute), so [require] raises [AttributeError] on it, on a
    local and on a delegated builder.  On a delegated builder the
    executor branch merges an executor group into the remote
    builder: it forwards the group's remote handle when it has one,
    and otherwise reads the group's [requests], constructs a remote
    executor group from them and forwards that; a bridge failure is
    raised.  An instance of [TaskResourceRequests] takes the task
    branch instead, in both modes. *)
Theorem require_dispatch_not_total w self :
  (∀ E T (o : other_request), local_builder w self E T →
     match ResourceProfileBuilder.getattr_requests o w with
     | Returns reqs _ =>
         ∃ w', ResourceProfileBuilder.require self (NotTaskResourceRequests o) w
               = Returns self w'
               ∧ builder_executor_map self w' = Returns (reqs ∪ E) w'
               ∧ builder_task_map self w' = Returns T w'
     | Raises ex _ =>
         ResourceProfileBuilder.require self (NotTaskResourceRequests o) w
         = Raises ex w
     end)
  ∧ (∀ E T (r : ExecutorResourceRequest), local_builder w self E T →
       ResourceProfileBuilder.require self
         (NotTaskResourceRequests (SingleExecutorRequest r)) w
       = Raises (AttributeError "requests") w)
  ∧ (∀ r : ExecutorResourceRequest, delegated_builder w self →
       ResourceProfileBuilder.require self
         (NotTaskResourceRequests (SingleExecutorRequest r)) w
       = Raises (AttributeError "_java_executor_resource_requests") w)
  ∧ (∀ jvm jb (g : ExecutorResourceRequests),
       builder_heap w !! self = Some (DelegatedBuilder jvm jb) →
       ResourceProfileBuilder.require self
         (NotTaskResourceRequests (ExecutorGroup g)) w
       = match _java_executor_resource_requests g with
         | Some jreqs =>
             match jrequire jb jreqs (engine w) with
             | Some (_, s) => Returns self (set_engine s w)
             | None => Raises BridgeError w
             end
         | None =>
             match jnew_ExecutorResourceRequests jvm (executor_requests g)
                     (engine w) with
             | Some (execReqs, s) =>
                 match jrequire jb execReqs s with
                 | Some (_, s') => Returns self (set_engine s' w)
                 | None => Raises BridgeError (set_engine s w)
                 end
             | None => Raises BridgeError w
             end
         end)
  ∧ (∀ jvm jb (g : TaskResourceRequests),
       builder_heap w !! self = Some (DelegatedBuilder jvm jb) →
       ResourceProfileBuilder.require self (IsTaskResourceRequests g) w
       = match _java_task_resource_requests g with
         | Some jreqs =>
             match jrequire jb jreqs (engine w) with
             | Some (_, s) => Returns self (set_engine s w)
             | None => Raises BridgeError w
             end
         | None =>
             match jnew_TaskResourceRequests jvm (task_requests g)
                     (engine w) with
             | Some (taskReqs, s) =>
                 match jrequire jb taskReqs s with
                 | Some (_, s') => Returns self (set_engine s' w)
                 | None => Raises BridgeError (set_engine s w)
                 end
             | None => Raises BridgeError w
             end
         end)
  ∧ (∀ E T (g : TaskResourceRequests), local_builder w self E T →
       ∃ w', ResourceProfileBuilder.require self (IsTaskResourceRequests g) w
             = Returns self w'
             ∧ builder_task_map self w' = Returns (task_requests g ∪ T) w'
             ∧ builder_executor_map self w' = Returns E w').
Proof.
  split_and!.
  - intros E T [g|r] Hb; simpl.
    + destruct (require_executor_local w self E T g Hb) as (w' & Hr & Hb').
      exists w'. split; [done|]. by apply local_builder_reads.
    + destruct Hb as (e & t & Hb & _). unfold_python. by rewrite Hb.
  - intros E T r (e & t & Hb & _). unfold_python. by rewrite Hb.
  - intros r (jvm & jb & Hb). unfold_python. by rewrite Hb.
  - intros jvm jb g Hb. unfold_python. rewrite Hb. simpl.
    destruct (_java_executor_resource_requests g) as [jreqs|]; simpl.
    + by destruct (jrequire jb jreqs (engine w)) as [[[] s]|].
    + destruct (jnew_ExecutorResourceRequests jvm (executor_requests g) (engine w))
        as [[execReqs s]|]; simpl; [|done].
      by destruct (jrequire jb execReqs s) as [[[] s']|].
  - intros jvm jb g Hb. unfold_python. rewrite Hb. simpl.
    destruct (_java_task_resource_requests g) as [jreqs|]; simpl.
    + by destruct (jrequire jb jreqs (engine w)) as [[[] s]|].
    + destruct (jnew_TaskResourceRequests jvm (task_requests g) (engine w))
        as [[taskReqs s]|]; simpl; [|done].
      by destruct (jrequire jb taskReqs s) as [[[] s']|].
  - intros E T g Hb.
    destruct (require_task_local w self E T g Hb) as (w' & Hr & Hb').
    exists w'. split; [done|]. by apply local_builder_reads in Hb' as [? ?].
Qed.
End Claims.

(** ** When a built profile shares the builder's dictionaries *)

Section Sharing.
Context `{RemoteSchedulingEngine}.
Implicit Types (w : world) (self : loc) (E : exec_dict) (T : task_dict).

(** [build] hands the builder's own task dictionary to the profile
    when it is not empty: a later [require] shows through the profile. *)
Lemma build_shares_nonempty_task w self E T :
  local_builder w self E T → T ≠ ∅ →
  ∃ p w1, ResourceProfileBuilder.build self w = Returns p w1
          ∧ ∀ g : TaskResourceRequests,
              ∃ w2, ResourceProfileBuilder.require self
                      (IsTaskResourceRequests g) w1 = Returns self w2
                    ∧ profile_task_map p w2 = Returns (task_requests g ∪ T) w2.
Proof.
  intros (e & t & Hb & He & Ht) HT. unfold_python.
  rewrite Hb. simpl. rewrite He.
  destruct (decide (E = ∅)) as [->|HE]; simpl; rewrite Ht;
    (destruct (decide (T = ∅)) as [->|_]; [done|]); simpl;
    (eexists _, _; split; [done|]); intros g; simpl;
    rewrite Hb; simpl; rewrite Ht;
    (eexists; split; [done|]); simpl; by rewrite lookup_insert_eq.
Qed.

(** [build] gives the profile a dictionary of its own when the
    builder's task dictionary is empty: a later [require] does not
    show through the profile. *)
Lemma build_copies_empty_task w self E :
  local_builder w self E ∅ →
  ∃ p w1, ResourceProfileBuilder.build self w = Returns p w1
          ∧ ∀ g : TaskResourceRequests,
              ∃ w2, ResourceProfileBuilder.require self
                      (IsTaskResourceRequests g) w1 = Returns self w2
                    ∧ profile_task_map p w2 = Returns ∅ w2.
Proof.
  intros (e & t & Hb & He & Ht). unfold_python.
  rewrite Hb. simpl. rewrite He.
  destruct (decide (E = ∅)) as [->|HE]; simpl; rewrite Ht;
    (destruct (decide (∅ = ∅)) as [_|]; [|done]); simpl;
    (eexists _, _; split; [done|]); intros g; simpl;
    rewrite Hb; simpl;
    rewrite (lookup_insert_ne (task_heap w)) by (by eapply fresh_lookup_ne);
    rewrite Ht; (eexists; split; [done|]); simpl;
    rewrite lookup_insert_ne by (by apply not_eq_sym; eapply fresh_lookup_ne);
    by rewrite lookup_insert_eq.
Qed.
End Sharing.

(** ** The scenarios, evaluated *)

Section Evaluated.
#[local] Existing Instance TableEngine.table_engine.

Lemma accumulated_local_builder :
  local_builder accumulated 1
    (executor_requests gpu_executor) (task_requests gpu_task).
Proof. exists 1%positive, 1%positive. repeat split; reflexivity. Defined.

Lemma accumulated_remotely_delegated : delegated_builder accumulated_remotely 1.
Proof. exists tt, 1%positive. reflexivity. Defined.

Lemma local_start_new_builder :
  local_builder (world_of (ResourceProfileBuilder.__init__ local_start)) 1 ∅ ∅.
Proof. exists 1%positive, 1%positive. repeat split; reflexivity. Defined.

(** C1.  The first profile of [build_require_build] reads
    [gpu_task]'s requirements before the second [require] and
    [cpus_task]'s too after it: it shares the builder's dictionary,
    and reads what the second profile reads. *)
Theorem first_profile_observes_later_require :
  ∃ before after second,
    result_of (build_require_build local_start) = Some (before, after, second)
    ∧ before = task_requests gpu_task
    ∧ after = task_requests cpus_task ∪ task_requests gpu_task
    ∧ after !! "cpus" = Some (mkTaskResourceRequest "cpus" 2)
    ∧ before !! "cpus" = None
    ∧ second = after.
Proof.
  exists (task_requests gpu_task),
    (task_requests cpus_task ∪ task_requests gpu_task),
    (task_requests cpus_task ∪ task_requests gpu_task).
  repeat split; reflexivity.
Qed.

Lemma id_local_raises_remote_forwards_witness :
  local_builder accumulated 1
    (executor_requests gpu_executor) (task_requests gpu_task)
  ∧ (∃ p w', ResourceProfileBuilder.build 1 accumulated = Returns p w'
             ∧ ∀ w'', ResourceProfile.id p w'' = Raises NotRegisteredError w'')
  ∧ ResourceProfile.id (RemoteProfile 4%positive) registered
    = Returns 0%Z (set_engine (engine registered) registered)
  ∧ ResourceProfile.id (RemoteProfile 4%positive) torn_down
    = Raises BridgeError torn_down.
Proof.
  destruct (id_local_raises_remote_forwards (H := TableEngine.table_engine))
    as (_ & Hlocal & Hremote).
  split; [exact accumulated_local_builder|].
  split; [exact (Hlocal _ _ _ _ accumulated_local_builder)|].
  split; [exact (Hremote 4%positive registered)
         |exact (Hremote 4%positive torn_down)].
Defined.

(** C2, as stated, fails: a profile backed by a remote handle whose
    session has been torn down raises the bridge error when [id] is
    read, so reading [id] on a remote-backed profile does not always
    succeed. *)
Lemma id_remote_not_always_returns :
  ResourceProfile.id (RemoteProfile 4%positive) torn_down
  = Raises BridgeError torn_down
  ∧ ¬ (∃ n w', ResourceProfile.id (RemoteProfile 4%positive) torn_down
               = Returns n w').
Proof.
  assert (Hraise : ResourceProfile.id (RemoteProfile 4%positive) torn_down
                   = Raises BridgeError torn_down) by reflexivity.
  split; [exact Hraise|].
  intros (n & w' & Hid). rewrite Hraise in Hid. discriminate Hid.
Qed.

Lemma require_sequence_is_union_witness :
  map_disjoint_list (executor_supplied
    [ExecutorSide gpu_executor; TaskSide gpu_task; TaskSide cpus_task;
     ExecutorSide cores_executor])
  ∧ map_disjoint_list (task_supplied
    [ExecutorSide gpu_executor; TaskSide gpu_task; TaskSide cpus_task;
     ExecutorSide cores_executor])
  ∧ ∃ w',
      require_all 1
        [ExecutorSide gpu_executor; TaskSide gpu_task; TaskSide cpus_task;
         ExecutorSide cores_executor]
        (world_of (ResourceProfileBuilder.__init__ local_start))
      = Returns 1%positive w'
      ∧ builder_executor_map 1 w'
        = Returns (⋃ [executor_requests gpu_executor;
                      executor_requests cores_executor] ∪ ∅) w'
      ∧ builder_task_map 1 w'
        = Returns (⋃ [task_requests gpu_task; task_requests cpus_task] ∪ ∅) w'.
Proof.
  assert (He : map_disjoint_list
                 [executor_requests gpu_executor; executor_requests cores_executor]).
  { apply map_disjoint_list_cons. split; [|apply map_disjoint_list_cons; split;
      [constructor|apply map_disjoint_list_nil]].
    constructor; [|constructor]. apply map_disjoint_singleton_l. reflexivity. }
  assert (Ht : map_disjoint_list
                 [task_requests gpu_task; task_requests cpus_task]).
  { apply map_disjoint_list_cons. split; [|apply map_disjoint_list_cons; split;
      [constructor|apply map_disjoint_list_nil]].
    constructor; [|constructor]. apply map_disjoint_singleton_l. reflexivity. }
  split; [exact He|]. split; [exact Ht|].
  exact (require_sequence_is_union (H := TableEngine.table_engine)
           [ExecutorSide gpu_executor; TaskSide gpu_task; TaskSide cpus_task;
            ExecutorSide cores_executor]
           _ 1%positive ∅ ∅ local_start_new_builder He Ht).
Defined.
Lemma require_last_write_wins_witness :
  local_builder accumulated 1
    (executor_requests gpu_executor) (task_requests gpu_task)
  ∧ ∃ w1 w2 T1 T2,
      ResourceProfileBuilder.require 1 (IsTaskResourceRequests gpu_task) accumulated
      = Returns 1%positive w1
      ∧ builder_task_map 1 w1 = Returns T1 w1
      ∧ ResourceProfileBuilder.require 1 (IsTaskResourceRequests gpu2_task) w1
        = Returns 1%positive w2
      ∧ builder_task_map 1 w2 = Returns T2 w2
      ∧ (∀ k v, task_requests gpu_task !! k = Some v → T1 !! k = Some v)
      ∧ (∀ k v, task_requests gpu2_task !! k = Some v → T2 !! k = Some v)
      ∧ (∀ k, task_requests gpu2_task !! k = None → T2 !! k = T1 !! k).
Proof.
  split; [exact accumulated_local_builder|].
  exact (proj1 (require_last_write_wins (H := TableEngine.table_engine)
                  accumulated 1%positive _ _ accumulated_local_builder)
           gpu_task gpu2_task).
Defined.

Lemma clear_empties_one_side_witness :
  local_builder accumulated 1
    (executor_requests gpu_executor) (task_requests gpu_task)
  ∧ (∃ w', ResourceProfileBuilder.clearExecutorResourceRequests 1 accumulated
           = Returns tt w'
           ∧ builder_executor_map 1 w' = Returns ∅ w'
           ∧ builder_task_map 1 w' = Returns (task_requests gpu_task) w')
  ∧ (∃ w', ResourceProfileBuilder.clearTaskResourceRequests 1 accumulated
           = Returns tt w'
           ∧ builder_task_map 1 w' = Returns ∅ w'
           ∧ builder_executor_map 1 w' = Returns (executor_requests gpu_executor) w').
Proof.
  split; [exact accumulated_local_builder|].
  exact (clear_empties_one_side (H := TableEngine.table_engine)
           accumulated 1%positive _ _ accumulated_local_builder).
Defined.

Lemma require_updates_one_side_witness :
  local_builder accumulated 1
    (executor_requests gpu_executor) (task_requests gpu_task)
  ∧ (∃ w', ResourceProfileBuilder.require 1 (IsTaskResourceRequests cpus_task)
             accumulated
           = Returns 1%positive w'
           ∧ builder_task_map 1 w'
             = Returns (task_requests cpus_task ∪ task_requests gpu_task) w'
           ∧ builder_executor_map 1 w'
             = Returns (executor_requests gpu_executor) w')
  ∧ (∃ w', ResourceProfileBuilder.require 1
             (NotTaskResourceRequests (ExecutorGroup cores_executor)) accumulated
           = Returns 1%positive w'
           ∧ builder_executor_map 1 w'
             = Returns (executor_requests cores_executor
                        ∪ executor_requests gpu_executor) w'
           ∧ builder_task_map 1 w' = Returns (task_requests gpu_task) w').
Proof.
  split; [exact accumulated_local_builder|].
  exact (require_updates_one_side (H := TableEngine.table_engine)
           accumulated 1%positive _ _ cpus_task cores_executor
           accumulated_local_builder).
Defined.

Lemma build_reflects_builder_witness :
  local_builder accumulated 1
    (executor_requests gpu_executor) (task_requests gpu_task)
  ∧ ∃ p w', ResourceProfileBuilder.build 1 accumulated = Returns p w'
            ∧ profile_executor_map p w'
              = Returns (executor_requests gpu_executor) w'
            ∧ profile_task_map p w' = Returns (task_requests gpu_task) w'.
Proof.
  split; [exact accumulated_local_builder|].
  exact (build_reflects_builder (H := TableEngine.table_engine)
           accumulated 1%positive _ _ accumulated_local_builder).
Defined.

Lemma require_returns_self_witness :
  builder_at accumulated 1
  ∧ builder_at accumulated_remotely 1
  ∧ match ResourceProfileBuilder.require 1
            (as_argument (TaskSide cpus_task)) accumulated with
    | Returns r _ => r = 1%positive
    | Raises ex _ => ex = BridgeError ∧ delegated_builder accumulated 1
    end
  ∧ match ResourceProfileBuilder.require 1
            (as_argument (ExecutorSide cores_executor)) accumulated_remotely with
    | Returns r _ => r = 1%positive
    | Raises ex _ => ex = BridgeError ∧ delegated_builder accumulated_remotely 1
    end.
Proof.
  assert (Hl : builder_at accumulated 1).
  { left. eexists _, _. exact accumulated_local_builder. }
  assert (Hr : builder_at accumulated_remotely 1).
  { right. exact accumulated_remotely_delegated. }
  split; [exact Hl|]. split; [exact Hr|]. split.
  - exact (require_returns_self (H := TableEngine.table_engine)
             accumulated 1%positive (TaskSide cpus_task) Hl).
  - exact (require_returns_self (H := TableEngine.table_engine)
             accumulated_remotely 1%positive (ExecutorSide cores_executor) Hr).
Defined.

Lemma build_leaves_builder_witness :
  local_builder accumulated 1
    (executor_requests gpu_executor) (task_requests gpu_task)
  ∧ builder_executor_map 1 accumulated
    = Returns (executor_requests gpu_executor) accumulated
  ∧ builder_task_map 1 accumulated
    = Returns (task_requests gpu_task) accumulated
  ∧ ∃ p w', ResourceProfileBuilder.build 1 accumulated = Returns p w'
            ∧ builder_executor_map 1 w'
              = Returns (executor_requests gpu_executor) w'
            ∧ builder_task_map 1 w' = Returns (task_requests gpu_task) w'.
Proof.
  split; [exact accumulated_local_builder|].
  exact (build_leaves_builder (H := TableEngine.table_engine)
           accumulated 1%positive _ _ accumulated_local_builder).
Defined.

Lemma require_dispatch_not_total_witness :
  local_builder accumulated 1
    (executor_requests gpu_executor) (task_requests gpu_task)
  ∧ delegated_builder accumulated_remotely 1
  ∧ builder_heap accumulated_remotely !! 1%positive
    = Some (DelegatedBuilder tt 1%positive)
  ∧ ResourceProfileBuilder.require 1
      (NotTaskResourceRequests
         (SingleExecutorRequest (mkExecutorResourceRequest "gpu" 2 "" "nvidia.com")))
      accumulated
    = Raises (AttributeError "requests") accumulated
  ∧ ResourceProfileBuilder.require 1
      (NotTaskResourceRequests
         (SingleExecutorRequest (mkExecutorResourceRequest "gpu" 2 "" "nvidia.com")))
      accumulated_remotely
    = Raises (AttributeError "_java_executor_resource_requests")
        accumulated_remotely
  ∧ (∃ w', ResourceProfileBuilder.require 1
             (NotTaskResourceRequests (ExecutorGroup cores_executor))
             accumulated_remotely
           = Returns 1%positive w'
           ∧ result_of (builder_executor_map 1 w')
             = Some (executor_requests cores_executor
                     ∪ executor_requests gpu_executor)
           ∧ result_of (builder_task_map 1 w')
             = Some (task_requests gpu_task)).
Proof.
  destruct (require_dispatch_not_total (H := TableEngine.table_engine)
              accumulated 1%positive) as (_ & Hsingle & _).
  destruct (require_dispatch_not_total (H := TableEngine.table_engine)
              accumulated_remotely 1%positive)
    as (_ & _ & Hsingle_remote & Hexecutor & _).
  split; [exact accumulated_local_builder|].
  split; [exact accumulated_remotely_delegated|].
  split; [reflexivity|].
  split; [exact (Hsingle _ _ _ accumulated_local_builder)|].
  split; [exact (Hsingle_remote _ accumulated_remotely_delegated)|].
  eexists. split.
  - etrans; [exact (Hexecutor tt 1%positive cores_executor eq_refl)|reflexivity].
  - split; reflexivity.
Defined.
End Evaluated.

Section Construction.
Context `{RemoteSchedulingEngine}.
Implicit Types (w : world) (self : loc) (E : exec_dict) (T : task_dict).

Lemma init_local_step w :
  SparkContext_jvm w = None →
  ∃ self e t w',
    ResourceProfileBuilder.__init__ w = Returns self w'
    ∧ builder_heap w !! self = None
    ∧ exec_heap w !! e = None ∧ task_heap w !! t = None
    ∧ builder_heap w' !! self = Some (LocalBuilder e t)
    ∧ local_builder w' self ∅ ∅
    ∧ engine w' = engine w
    ∧ ∀ b E T, local_builder w b E T → local_builder w' b E T.
Proof.
  intros Hjvm.
  unfold ResourceProfileBuilder.__init__, bind, get_SparkContext_jvm,
    new_builder, new_exec_dict, new_task_dict.
  rewrite Hjvm. simpl.
  eexists _, _, _, _. split; [done|].
  assert (Hf : ∀ V (h : gmap loc V), h !! fresh (dom h) = None).
  { intros V h. apply not_elem_of_dom, is_fresh. }
  split; [apply Hf|]. split; [apply Hf|]. split; [apply Hf|].
  simpl. split; [by rewrite lookup_insert_eq|]. split; [|split; [done|]].
  - eexists _, _. simpl. by rewrite !lookup_insert_eq.
  - intros b E T (e & t & Hb & He & Ht). exists e, t. simpl.
    rewrite !lookup_insert_ne by (by eapply fresh_lookup_ne). done.
Qed.
End Construction.

Section Loops.
Context `{RemoteSchedulingEngine}.
Implicit Types (w : world) (self : loc) (E : exec_dict) (T : task_dict).

Lemma rebuild_task (v : TaskResourceRequest) :
  mkTaskResourceRequest (task_resourceName v) (task_amount v) = v.
Proof. by destruct v. Qed.

Lemma rebuild_executor (v : ExecutorResourceRequest) :
  mkExecutorResourceRequest (resourceName v) (amount v)
    (discoveryScript v) (vendor v) = v.
Proof. by destruct v. Qed.

Lemma set_task_heap_same w : set_task_heap (task_heap w) w = w.
Proof. by destruct w. Qed.

Lemma set_exec_heap_same w : set_exec_heap (exec_heap w) w = w.
Proof. by destruct w. Qed.

Lemma for_each_task_setitem (items : list (string * TaskResourceRequest)) w l d :
  task_heap w !! l = Some d →
  for_each items (λ kv,
    task_setitem l kv.1
      (mkTaskResourceRequest (task_resourceName kv.2) (task_amount kv.2))) w
  = Returns tt (set_task_heap (<[l := store_items items d]> (task_heap w)) w).
Proof.
  revert w d. induction items as [|[k v] items IH]; intros w d Hl.
  - simpl. unfold ret. by rewrite insert_id, set_task_heap_same.
  - simpl. unfold bind, task_setitem at 1. rewrite Hl.
    rewrite (IH _ (<[k := v]> d)).
    2:{ simpl. by rewrite lookup_insert_eq, rebuild_task. }
    unfold set_task_heap. simpl. by rewrite insert_insert_eq.
Qed.

Lemma for_each_exec_setitem (items : list (string * ExecutorResourceRequest)) w l d :
  exec_heap w !! l = Some d →
  for_each items (λ kv,
    exec_setitem l kv.1
      (mkExecutorResourceRequest (resourceName kv.2) (amount kv.2)
         (discoveryScript kv.2) (vendor kv.2))) w
  = Returns tt (set_exec_heap (<[l := store_items items d]> (exec_heap w)) w).
Proof.
  revert w d. induction items as [|[k v] items IH]; intros w d Hl.
  - simpl. unfold ret. by rewrite insert_id, set_exec_heap_same.
  - simpl. unfold bind, exec_setitem at 1. rewrite Hl.
    rewrite (IH _ (<[k := v]> d)).
    2:{ simpl. by rewrite lookup_insert_eq, rebuild_executor. }
    unfold set_exec_heap. simpl. by rewrite insert_insert_eq.
Qed.

Lemma store_items_snoc {V} (items : list (string * V)) kv (d : gmap string V) :
  store_items (items ++ [kv]) d = <[kv.1 := kv.2]> (store_items items d).
Proof. unfold store_items. by rewrite foldl_app. Qed.

Lemma store_items_list_to_map {V} (items : list (string * V)) :
  NoDup items.*1 →
  store_items items ∅ = list_to_map items.
Proof.
  intros Hnd.
  assert (Hrev : store_items items (∅ : gmap string V)
                 = list_to_map (reverse items)).
  { clear Hnd. induction items as [|kv items IH] using rev_ind; [done|].
    rewrite store_items_snoc, reverse_app, IH. by destruct kv. }
  rewrite Hrev. apply list_to_map_proper.
  - by rewrite fmap_reverse, reverse_Permutation.
  - apply reverse_Permutation.
Qed.

(** The four remote reads, when the engine answers with [items]. *)
Lemma remote_profile_taskResources w j items s :
  jtaskResourcesJMap j (engine w) = Some (items, s) →
  ResourceProfile.taskResources (RemoteProfile j) w
  = Returns (fresh (dom (task_heap w)))
      (set_task_heap
         (<[fresh (dom (task_heap w)) := store_items items ∅]> (task_heap w))
         (set_engine s w)).
Proof.
  intros Hj. unfold ResourceProfile.taskResources, bind, remote, new_task_dict.
  rewrite Hj. simpl.
  erewrite for_each_task_setitem by (simpl; apply lookup_insert_eq).
  unfold ret, set_task_heap. simpl. by rewrite insert_insert_eq.
Qed.

Lemma remote_profile_executorResources w j items s :
  jexecutorResourcesJMap j (engine w) = Some (items, s) →
  ResourceProfile.executorResources (RemoteProfile j) w
  = Returns (fresh (dom (exec_heap w)))
      (set_exec_heap
         (<[fresh (dom (exec_heap w)) := store_items items ∅]> (exec_heap w))
         (set_engine s w)).
Proof.
  intros Hj. unfold ResourceProfile.executorResources, bind, remote, new_exec_dict.
  rewrite Hj. simpl.
  erewrite for_each_exec_setitem by (simpl; apply lookup_insert_eq).
  unfold ret, set_exec_heap. simpl. by rewrite insert_insert_eq.
Qed.

Lemma remote_builder_taskResources w self jvm jb items s :
  builder_heap w !! self = Some (DelegatedBuilder jvm jb) →
  jtaskResourcesJMap jb (engine w) = Some (items, s) →
  ResourceProfileBuilder.taskResources self w
  = Returns (fresh (dom (task_heap w)))
      (set_task_heap
         (<[fresh (dom (task_heap w)) := store_items items ∅]> (task_heap w))
         (set_engine s w)).
Proof.
  intros Hb Hj.
  unfold ResourceProfileBuilder.taskResources, bind, get_builder, remote,
    new_task_dict.
  rewrite Hb. simpl. rewrite Hj. simpl.
  erewrite for_each_task_setitem by (simpl; apply lookup_insert_eq).
  unfold ret, set_task_heap. simpl. by rewrite insert_insert_eq.
Qed.

Lemma remote_builder_executorResources w self jvm jb items s :
  builder_heap w !! self = Some (DelegatedBuilder jvm jb) →
  jexecutorResourcesJMap jb (engine w) = Some (items, s) →
  ResourceProfileBuilder.executorResources self w
  = Returns (fresh (dom (exec_heap w)))
      (set_engine s
         (set_exec_heap
            (<[fresh (dom (exec_heap w)) := store_items items ∅]> (exec_heap w))
            w)).
Proof.
  intros Hb Hj.
  unfold ResourceProfileBuilder.executorResources, bind, get_builder, remote,
    new_exec_dict.
  rewrite Hb. simpl. rewrite Hj. simpl.
  erewrite for_each_exec_setitem by (simpl; apply lookup_insert_eq).
  unfold ret, set_exec_heap, set_engine. simpl. by rewrite insert_insert_eq.
Qed.
End Loops.

Ltac unfold_calls :=
  unfold ResourceProfileBuilder.__init__, run_call, new_builder,
    get_SparkContext_jvm;
  unfold_python.

Ltac inner_case :=
  match goal with
  | |- context [match ?x with _ => _ end] =>
      lazymatch x with
      | context [match _ with _ => _ end] => fail
      | _ => destruct x eqn:?
      end
  end.

Ltac crack :=
  repeat first
    [ erewrite for_each_task_setitem by (simpl; apply lookup_insert_eq)
    | erewrite for_each_exec_setitem by (simpl; apply lookup_insert_eq)
    | progress simpl
    | progress simplify_eq/=
    | inner_case ].

Section Invariants.
Context `{RemoteSchedulingEngine}.
Implicit Types (w : world) (self : loc) (E : exec_dict) (T : task_dict).

Lemma call_effect_refl self w : call_effect self w w.
Proof. unfold call_effect. auto. Qed.

Ltac effect_done :=
  try apply call_effect_refl;
  unfold call_effect; simpl; rewrite ?dom_insert_L;
  split_and!; try set_solver; try (by left).

Lemma run_call_effect self (c : builder_call) w :
  call_effect self w (world_of (run_call self c w)).
Proof.
  unfold_calls.
  destruct c as [[g|[g|r]]| | | | |]; simpl;
    destruct (builder_heap w !! self) as [[jvm jb|e t]|] eqn:Hb; simpl;
    rewrite ?Hb; crack; try (by effect_done).
Qed.

Lemma run_calls_effect_builders self (cs : list builder_call) w b o :
  builder_heap w !! b = Some o →
  ∃ o', builder_heap (world_of (run_calls self cs w)) !! b = Some o'
        ∧ same_mode o o'.
Proof.
  assert (Hrefl : ∀ o, same_mode o o).
  { intros [jvm jb|e t]; simpl; eauto. }
  assert (Htrans : ∀ o1 o2 o3, same_mode o1 o2 → same_mode o2 o3 → same_mode o1 o3).
  { intros [jvm jb|e t] o2 o3; simpl; [by intros ->|].
    intros (e2 & t2 & ->). done. }
  revert w o. induction cs as [|c cs IH]; intros w o Hb; simpl.
  { exists o. eauto. }
  pose proof (run_call_effect self c w) as (_ & _ & _ & Hbuilders).
  unfold bind. destruct (run_call self c w) as [[] w1|ex w1] eqn:Hc; simpl in *.
  - assert (∃ o1, builder_heap w1 !! b = Some o1 ∧ same_mode o o1)
      as (o1 & Hb1 & Hm1).
    { destruct Hbuilders as [->|(e & t & e' & t' & Hself & -> & _)]; [eauto|].
      destruct (decide (b = self)) as [->|Hne].
      - rewrite lookup_insert_eq. eexists; split; [done|].
        rewrite Hself in Hb. injection Hb as <-. simpl. eauto.
      - rewrite lookup_insert_ne by done. eauto. }
    destruct (IH w1 o1 Hb1) as (o' & Hb' & Hm'). eauto.
  - destruct Hbuilders as [->|(e & t & e' & t' & Hself & -> & _)]; [eauto|].
    destruct (decide (b = self)) as [->|Hne].
    + rewrite lookup_insert_eq. eexists; split; [done|].
      rewrite Hself in Hb. injection Hb as <-. simpl. eauto.
    + rewrite lookup_insert_ne by done. eauto.
Qed.

Lemma run_call_well_formed self (c : builder_call) w :
  well_formed w → well_formed (world_of (run_call self c w)).
Proof.
  intros Hwf.
  pose proof (run_call_effect self c w) as (He & Ht & _ & Hbuilders).
  intros b e t Hb.
  assert (Hold : ∀ e0 t0, builder_heap w !! b = Some (LocalBuilder e0 t0) →
            is_Some (exec_heap (world_of (run_call self c w)) !! e0)
            ∧ is_Some (task_heap (world_of (run_call self c w)) !! t0)).
  { intros e0 t0 Hb0. destruct (Hwf b e0 t0 Hb0) as [H1 H2].
    apply elem_of_dom in H1, H2.
    split; apply elem_of_dom; [by apply He|by apply Ht]. }
  destruct Hbuilders as [Heq|(e0 & t0 & e' & t' & Hself & Heq & He' & Ht')].
  - rewrite Heq in Hb. by apply Hold.
  - rewrite Heq in Hb. destruct (decide (b = self)) as [->|Hne].
    + rewrite lookup_insert_eq in Hb. injection Hb as <- <-.
      destruct (Hold e0 t0 Hself) as [H1 H2].
      split; [destruct He' as [->|?]|destruct Ht' as [->|?]];
        try done; by apply elem_of_dom.
    + rewrite lookup_insert_ne in Hb by done. by apply Hold.
Qed.

Lemma calls_keep_store_well_formed self (cs : list builder_call) w :
  well_formed w → well_formed (world_of (run_calls self cs w)).
Proof.
  revert w. induction cs as [|c cs IH]; intros w Hwf; [done|].
  simpl. unfold bind.
  pose proof (run_call_well_formed self c w Hwf) as Hwf1.
  destruct (run_call self c w) as [[] w1|ex w1]; [exact (IH _ Hwf1)|exact Hwf1].
Qed.

Lemma init_keeps_store_well_formed w :
  well_formed w → well_formed (world_of (ResourceProfileBuilder.__init__ w)).
Proof.
  intros Hwf. unfold_calls.
  destruct (SparkContext_jvm w) as [jvm|]; simpl.
  - destruct (jnew_ResourceProfileBuilder jvm (engine w)) as [[jb s]|]; simpl;
      [|exact Hwf].
    intros b e t. simpl. intros Hb.
    destruct (decide (b = fresh (dom (builder_heap w)))) as [->|Hne].
    + by rewrite lookup_insert_eq in Hb.
    + rewrite lookup_insert_ne in Hb by done. by apply (Hwf b).
  - intros b e t. simpl. intros Hb.
    destruct (decide (b = fresh (dom (builder_heap w)))) as [->|Hne].
    + rewrite lookup_insert_eq in Hb. injection Hb as <- <-.
      rewrite !lookup_insert_eq. eauto.
    + rewrite lookup_insert_ne in Hb by done.
      destruct (Hwf b e t Hb) as [[E He] [T Ht]].
      rewrite !lookup_insert_ne by (by eapply fresh_lookup_ne). eauto.
Qed.

Lemma run_call_no_dangling self (c : builder_call) w :
  well_formed w → is_Some (builder_heap w !! self) →
  ∀ w', run_call self c w ≠ Raises InvalidReference w'.
Proof.
  intros Hwf [o Hb] w'. pose proof (Hwf self) as Hself. rewrite Hb in Hself.
  unfold_calls.
  destruct o as [jvm jb|e t]; [|destruct (Hself e t eq_refl) as [[E He] [T Ht]]];
    destruct c as [[g|[g|r]]| | | | |]; simpl; rewrite ?Hb; simpl;
    rewrite ?Hb, ?He, ?Ht; crack; rewrite ?Hb, ?He, ?Ht; crack; done.
Qed.

Lemma delegated_call_store self (c : builder_call) w :
  delegated_builder w self →
  builder_heap (world_of (run_call self c w)) = builder_heap w
  ∧ exec_heap w ⊆ exec_heap (world_of (run_call self c w))
  ∧ task_heap w ⊆ task_heap (world_of (run_call self c w))
  ∧ delegated_builder (world_of (run_call self c w)) self.
Proof.
  intros (jvm & jb & Hb).
  assert (Hf : ∀ V (h : gmap loc V) v, h ⊆ <[fresh (dom h) := v]> h).
  { intros V h v. apply insert_subseteq, not_elem_of_dom, is_fresh. }
  unfold delegated_builder. unfold_calls.
  destruct c as [[g|[g|r]]| | | | |]; simpl; rewrite Hb; crack;
    rewrite ?insert_insert_eq; eauto 10.
Qed.

Lemma local_call_engine self (c : builder_call) w E T :
  local_builder w self E T →
  engine (world_of (run_call self c w)) = engine w.
Proof.
  intros (e & t & Hb & He & Ht). unfold_calls.
  destruct c as [[g|[g|r]]| | | | |]; simpl; rewrite ?Hb; simpl;
    rewrite ?Hb, ?He, ?Ht; crack; rewrite ?Hb, ?He, ?Ht; crack; done.
Qed.
End Invariants.

Section LocalSequences.
Context `{RemoteSchedulingEngine}.
Implicit Types (w : world) (self : loc) (E : exec_dict) (T : task_dict).

Lemma run_call_local self (c : builder_call) w E T :
  local_builder w self E T → group_call c →
  ∃ w', run_call self c w = Returns tt w'
        ∧ local_builder w' self (merge_call (E, T) c).1 (merge_call (E, T) c).2.
Proof.
  intros Hb Hg. destruct c as [[g|[g|r]]| | | | |]; simpl in *; try done.
  - destruct (require_task_local w self E T g Hb) as (w' & Hr & Hb').
    exists w'. unfold bind. by rewrite Hr.
  - destruct (require_executor_local w self E T g Hb) as (w' & Hr & Hb').
    exists w'. unfold bind. by rewrite Hr.
  - exact (clearExecutor_local w self E T Hb).
  - exact (clearTask_local w self E T Hb).
  - exists w. split; [|done]. destruct Hb as (e & t & Hb & _).
    unfold_python. by rewrite Hb.
  - exists w. split; [|done]. destruct Hb as (e & t & Hb & _).
    unfold_python. by rewrite Hb.
  - destruct (build_local w self E T Hb) as (p & w' & Hr & Hb' & _).
    exists w'. unfold bind. by rewrite Hr.
Qed.

Lemma run_calls_local self (cs : list builder_call) w E T :
  local_builder w self E T → Forall group_call cs →
  ∃ w', run_calls self cs w = Returns tt w'
        ∧ local_builder w' self (foldl merge_call (E, T) cs).1
            (foldl merge_call (E, T) cs).2
        ∧ engine w' = engine w.
Proof.
  revert w E T. induction cs as [|c cs IH]; intros w E T Hb Hg; simpl.
  { by exists w. }
  apply Forall_cons in Hg as [Hc Hg].
  destruct (run_call_local self c w E T Hb Hc) as (w1 & Hr & Hb1).
  pose proof (local_call_engine self c w E T Hb) as Heng. rewrite Hr in Heng.
  destruct (merge_call (E, T) c) as [E1 T1] eqn:Hm.
  destruct (IH w1 E1 T1 Hb1 Hg) as (w' & Hr' & Hb' & Heng').
  exists w'. unfold bind. rewrite Hr. simpl in *. split; [done|].
  split; [done|]. congruence.
Qed.

Ltac separate_done :=
  simpl; rewrite ?lookup_insert_eq;
  rewrite ?lookup_insert_ne
    by first [done | by apply not_eq_sym | by eapply fresh_lookup_ne
             | by apply not_eq_sym; eapply fresh_lookup_ne];
  try done.

Lemma run_call_separate b b' (c : builder_call) w E T :
  separate_builders w b b' → local_builder w b E T →
  separate_builders (world_of (run_call b' c w)) b b'
  ∧ local_builder (world_of (run_call b' c w)) b E T.
Proof.
  intros (e & t & e' & t' & Hb & Hb' & Hne & Hee & Htt) (e0 & t0 & Hb0 & He & Ht).
  rewrite Hb in Hb0. injection Hb0 as <- <-.
  unfold separate_builders, local_builder. unfold_calls.
  destruct c as [[g|[g|r]]| | | | |]; simpl; rewrite ?Hb'; simpl;
    rewrite ?Hb'; crack;
    (split; [eexists e, t, _, _|exists e, t]); split_and!; separate_done.
  all: try (by eapply fresh_lookup_ne).
  all: try (by apply not_eq_sym; eapply fresh_lookup_ne).
Qed.

Lemma run_calls_separate b b' (cs : list builder_call) w E T :
  separate_builders w b b' → local_builder w b E T →
  local_builder (world_of (run_calls b' cs w)) b E T.
Proof.
  revert w. induction cs as [|c cs IH]; intros w Hs Hb; [done|].
  destruct (run_call_separate b b' c w E T Hs Hb) as [Hs1 Hb1].
  simpl. unfold bind.
  destruct (run_call b' c w) as [[] w1|ex w1]; simpl in *; [by apply IH|done].
Qed.
End LocalSequences.

(** ** Further properties: construction, modes and call sequences *)

Section Further.
Context `{RemoteSchedulingEngine}.
Implicit Types (w : world) (self : loc) (E : exec_dict) (T : task_dict).

(** X1.  Without a session, the constructor returns a new builder,
    at an address not used before, in local mode, around two new
    dictionaries that read empty; it does not call the engine, and
    every local-mode builder there was reads what it read. *)
Theorem init_local_new_builder w :
  SparkContext_jvm w = None →
  ∃ self e t w',
    ResourceProfileBuilder.__init__ w = Returns self w'
    ∧ builder_heap w !! self = None
    ∧ exec_heap w !! e = None ∧ task_heap w !! t = None
    ∧ builder_heap w' !! self = Some (LocalBuilder e t)
    ∧ local_builder w' self ∅ ∅
    ∧ engine w' = engine w
    ∧ ∀ b E T, local_builder w b E T → local_builder w' b E T.
Proof. apply init_local_step. Qed.

(** X2.  With a session, the constructor asks the engine for a remote
    builder: when the engine answers, the new builder is a delegated
    one around that handle, at an address not used before, and no
    dictionary is created; when the bridge fails, the constructor
    raises and the store is as before. *)
Theorem init_delegated_or_raises w jvm :
  SparkContext_jvm w = Some jvm →
  match jnew_ResourceProfileBuilder jvm (engine w) with
  | Some (jb, s) =>
      ∃ self w', ResourceProfileBuilder.__init__ w = Returns self w'
                 ∧ builder_heap w !! self = None
                 ∧ builder_heap w' !! self = Some (DelegatedBuilder jvm jb)
                 ∧ engine w' = s
                 ∧ exec_heap w' = exec_heap w ∧ task_heap w' = task_heap w
  | None => ResourceProfileBuilder.__init__ w = Raises BridgeError w
  end.
Proof.
  intros Hjvm. unfold_calls. rewrite Hjvm. simpl.
  destruct (jnew_ResourceProfileBuilder jvm (engine w)) as [[jb s]|]; [|done].
  simpl. eexists _, _. split; [done|]. simpl.
  split; [apply not_elem_of_dom, is_fresh|]. by rewrite lookup_insert_eq.
Qed.

(** X3.  A builder constructed while another local-mode builder
    exists is a different object, and the two never disturb each
    other: whatever is called on one, the other reads what it read. *)
Theorem second_builder_is_independent w b E T :
  local_builder w b E T → SparkContext_jvm w = None →
  ∃ b' w1, ResourceProfileBuilder.__init__ w = Returns b' w1
           ∧ b' ≠ b
           ∧ (∀ cs, local_builder (world_of (run_calls b' cs w1)) b E T)
           ∧ (∀ cs, local_builder (world_of (run_calls b cs w1)) b' ∅ ∅).
Proof.
  intros Hb Hjvm.
  destruct (init_local_step w Hjvm)
    as (b' & e' & t' & w1 & Hinit & Hnew & He' & Ht' & Hb' & Hl' & _ & Hkeep).
  exists b', w1. split; [done|].
  pose proof (Hkeep b E T Hb) as Hb1.
  destruct Hb as (e & t & Hbe & He & Ht).
  destruct Hb1 as (e1 & t1 & Hb1e & He1 & Ht1).
  assert (Hne : b' ≠ b) by congruence.
  assert (Hsep : separate_builders w1 b b').
  { exists e1, t1, e', t'. split_and!; try done.
    - destruct (Hkeep b E T) as (e2 & t2 & Hb2 & _); [by exists e, t|].
      assert (e2 = e ∧ t2 = t) as [-> ->].
      { clear -Hinit Hbe Hb2 Hne Hjvm. revert Hinit. unfold_calls.
        rewrite Hjvm. simpl. intros [= <- <-]. simpl in Hb2.
        rewrite lookup_insert_ne in Hb2 by done. split; congruence. }
      rewrite Hb2 in Hb1e. injection Hb1e as <- <-. congruence.
    - destruct (Hkeep b E T) as (e2 & t2 & Hb2 & _); [by exists e, t|].
      assert (e2 = e ∧ t2 = t) as [-> ->].
      { clear -Hinit Hbe Hb2 Hne Hjvm. revert Hinit. unfold_calls.
        rewrite Hjvm. simpl. intros [= <- <-]. simpl in Hb2.
        rewrite lookup_insert_ne in Hb2 by done. split; congruence. }
      rewrite Hb2 in Hb1e. injection Hb1e as <- <-. congruence. }
  split; [done|]. split.
  - intros cs. apply run_calls_separate; [done|]. by exists e1, t1.
  - intros cs. apply run_calls_separate; [|done].
    destruct Hsep as (x1 & x2 & x3 & x4 & ? & ? & ? & ? & ?).
    exists x3, x4, x1, x2. split_and!; done.
Qed.

(** X4.  A local-mode builder behaves as the pair of maps it holds:
    a sequence of calls whose [require] arguments are groups runs to
    the end, leaves the accessors reading what [merge_call] computes
    call by call, and never calls the engine. *)
Theorem local_builder_is_pair_of_maps self (cs : list builder_call) w E T :
  local_builder w self E T → Forall group_call cs →
  ∃ w', run_calls self cs w = Returns tt w'
        ∧ builder_executor_map self w'
          = Returns (foldl merge_call (E, T) cs).1 w'
        ∧ builder_task_map self w'
          = Returns (foldl merge_call (E, T) cs).2 w'
        ∧ engine w' = engine w.
Proof.
  intros Hb Hg.
  destruct (run_calls_local self cs w E T Hb Hg) as (w' & Hr & Hb' & Heng).
  exists w'. split; [done|].
  destruct (local_builder_reads _ _ _ _ Hb') as [? ?]. done.
Qed.

(** X5.  The mode of a builder is fixed at construction: whatever is
    called on whichever builder, a delegated builder stays the same
    delegated builder and a local builder stays local. *)
Theorem mode_is_fixed self (cs : list builder_call) w b o :
  builder_heap w !! b = Some o →
  ∃ o', builder_heap (world_of (run_calls self cs w)) !! b = Some o'
        ∧ same_mode o o'.
Proof. apply run_calls_effect_builders. Qed.

(** X6.  The store stays well formed: it is at interpreter start, the
    constructor keeps it so, and so does every sequence of calls on a
    builder, none of which ever reaches for an object that is not
    there. *)
Theorem store_stays_well_formed :
  (∀ jvm s, well_formed (initial_world jvm s))
  ∧ (∀ w, well_formed w →
          well_formed (world_of (ResourceProfileBuilder.__init__ w)))
  ∧ (∀ w self cs, well_formed w → is_Some (builder_heap w !! self) →
       well_formed (world_of (run_calls self cs w))
       ∧ ∀ w', run_calls self cs w ≠ Raises InvalidReference w').
Proof.
  split; [|split].
  - intros jvm s b e t. simpl. by rewrite lookup_empty.
  - apply init_keeps_store_well_formed.
  - intros w self cs. revert w. induction cs as [|c cs IH]; intros w Hwf Hb.
    { done. }
    pose proof (run_call_well_formed self c w Hwf) as Hwf1.
    pose proof (run_call_no_dangling self c w Hwf Hb) as Hnd.
    assert (Hb1 : is_Some (builder_heap (world_of (run_call self c w)) !! self)).
    { destruct Hb as [o Hb].
      destruct (run_calls_effect_builders self [c] w self o Hb) as (o' & Ho' & _).
      simpl in Ho'. unfold bind, ret in Ho'.
      destruct (run_call self c w) as [[] w1|ex w1]; eauto. }
    simpl. unfold bind.
    destruct (run_call self c w) as [[] w1|ex w1]; simpl in *.
    + by apply IH.
    + split; [done|]. intros w' [= -> ->]. by eapply Hnd.
Qed.

(** X7.  Calls on a delegated builder leave the Python store alone:
    no builder object changes, every dictionary that exists keeps its
    contents, and all that may appear are the new dictionaries the
    two accessors hand out. *)
Theorem delegated_calls_leave_store self (cs : list builder_call) w :
  delegated_builder w self →
  builder_heap (world_of (run_calls self cs w)) = builder_heap w
  ∧ exec_heap w ⊆ exec_heap (world_of (run_calls self cs w))
  ∧ task_heap w ⊆ task_heap (world_of (run_calls self cs w)).
Proof.
  revert w. induction cs as [|c cs IH]; intros w Hd; [done|].
  destruct (delegated_call_store self c w Hd) as (Hb1 & He1 & Ht1 & Hd1).
  simpl. unfold bind.
  destruct (run_call self c w) as [[] w1|ex w1]; simpl in *; [|done].
  destruct (IH w1 Hd1) as (Hb2 & He2 & Ht2).
  split; [congruence|]. split; etrans; done.
Qed.
End Further.

(** ** Further properties: sharing between builder, accessors and profiles *)

Section FurtherSharing.
Context `{RemoteSchedulingEngine}.
Implicit Types (w : world) (self : loc) (E : exec_dict) (T : task_dict).

Lemma build_shares_nonempty_executor w self E T :
  local_builder w self E T → E ≠ ∅ →
  ∃ p w1, ResourceProfileBuilder.build self w = Returns p w1
          ∧ ∀ g : ExecutorResourceRequests,
              ∃ w2, ResourceProfileBuilder.require self
                      (NotTaskResourceRequests (ExecutorGroup g)) w1
                    = Returns self w2
                    ∧ profile_executor_map p w2
                      = Returns (executor_requests g ∪ E) w2.
Proof.
  intros (e & t & Hb & He & Ht) HE. unfold_python.
  rewrite Hb. simpl. rewrite He.
  destruct (decide (E = ∅)) as [->|_]; [done|]. simpl. rewrite Ht.
  destruct (decide (T = ∅)) as [->|HT]; simpl;
    (eexists _, _; split; [done|]); intros g; simpl;
    rewrite Hb; simpl; rewrite He;
    (eexists; split; [done|]); simpl; by rewrite lookup_insert_eq.
Qed.

Lemma build_copies_empty_executor w self T :
  local_builder w self ∅ T →
  ∃ p w1, ResourceProfileBuilder.build self w = Returns p w1
          ∧ ∀ g : ExecutorResourceRequests,
              ∃ w2, ResourceProfileBuilder.require self
                      (NotTaskResourceRequests (ExecutorGroup g)) w1
                    = Returns self w2
                    ∧ profile_executor_map p w2 = Returns ∅ w2.
Proof.
  intros (e & t & Hb & He & Ht). unfold_python.
  rewrite Hb. simpl. rewrite He.
  destruct (decide (∅ = ∅)) as [_|]; [|done]. simpl. rewrite Ht.
  destruct (decide (T = ∅)) as [->|HT]; simpl;
    (eexists _, _; split; [done|]); intros g; simpl;
    rewrite Hb; simpl;
    rewrite (lookup_insert_ne (exec_heap w)) by (by eapply fresh_lookup_ne);
    rewrite He; (eexists; split; [done|]); simpl;
    rewrite lookup_insert_ne by (by apply not_eq_sym; eapply fresh_lookup_ne);
    by rewrite lookup_insert_eq.
Qed.

(** X8.  [build] hands the builder's own dictionary to the profile
    when that dictionary is not empty, on either side: what a later
    [require] merges into the builder shows in the profile built
    before. *)
Theorem build_shares_nonempty_dictionaries w self E T :
  local_builder w self E T →
  (T ≠ ∅ →
   ∃ p w1, ResourceProfileBuilder.build self w = Returns p w1
           ∧ ∀ g : TaskResourceRequests,
               ∃ w2, ResourceProfileBuilder.require self
                       (IsTaskResourceRequests g) w1 = Returns self w2
                     ∧ profile_task_map p w2 = Returns (task_requests g ∪ T) w2)
  ∧ (E ≠ ∅ →
     ∃ p w1, ResourceProfileBuilder.build self w = Returns p w1
             ∧ ∀ g : ExecutorResourceRequests,
                 ∃ w2, ResourceProfileBuilder.require self
                         (NotTaskResourceRequests (ExecutorGroup g)) w1
                       = Returns self w2
                       ∧ profile_executor_map p w2
                         = Returns (executor_requests g ∪ E) w2).
Proof.
  intros Hb. split; intros Hne.
  - exact (build_shares_nonempty_task w self E T Hb Hne).
  - exact (build_shares_nonempty_executor w self E T Hb Hne).
Qed.

(** X9.  [build] gives the profile a new dictionary for a side whose
    dictionary is empty: what a later [require] merges into that side
    of the builder does not show in the profile built before. *)
Theorem build_copies_empty_dictionaries w self :
  (∀ E, local_builder w self E ∅ →
     ∃ p w1, ResourceProfileBuilder.build self w = Returns p w1
             ∧ ∀ g : TaskResourceRequests,
                 ∃ w2, ResourceProfileBuilder.require self
                         (IsTaskResourceRequests g) w1 = Returns self w2
                       ∧ profile_task_map p w2 = Returns ∅ w2)
  ∧ (∀ T, local_builder w self ∅ T →
       ∃ p w1, ResourceProfileBuilder.build self w = Returns p w1
               ∧ ∀ g : ExecutorResourceRequests,
                   ∃ w2, ResourceProfileBuilder.require self
                           (NotTaskResourceRequests (ExecutorGroup g)) w1
                         = Returns self w2
                         ∧ profile_executor_map p w2 = Returns ∅ w2).
Proof.
  split.
  - intros E. apply build_copies_empty_task.
  - intros T. apply build_copies_empty_executor.
Qed.

(** X10.  The [clear*] methods rebind the builder's attribute to a
    new dictionary and leave the old one alone: a profile built
    before goes on reading both maps as they were at [build]. *)
Theorem clear_leaves_built_profile w self E T :
  local_builder w self E T →
  ∃ p w1, ResourceProfileBuilder.build self w = Returns p w1
    ∧ (∃ w2, ResourceProfileBuilder.clearTaskResourceRequests self w1
             = Returns tt w2
             ∧ builder_task_map self w2 = Returns ∅ w2
             ∧ profile_task_map p w2 = Returns T w2
             ∧ profile_executor_map p w2 = Returns E w2)
    ∧ (∃ w2, ResourceProfileBuilder.clearExecutorResourceRequests self w1
             = Returns tt w2
             ∧ builder_executor_map self w2 = Returns ∅ w2
             ∧ profile_task_map p w2 = Returns T w2
             ∧ profile_executor_map p w2 = Returns E w2).
Proof.
  intros Hb.
  destruct (build_local w self E T Hb)
    as (p & w1 & Hp & (e & t & Hb1 & He1 & Ht1) & (e' & t' & -> & He' & Ht')).
  exists (LocalProfile e' t'), w1. split; [done|].
  unfold_python. rewrite Hb1. simpl. rewrite Hb1. simpl.
  split; eexists; (split; [done|]); simpl;
    rewrite ?lookup_insert_eq; simpl; rewrite ?lookup_insert_eq;
    rewrite ?lookup_insert_ne by (by eapply fresh_lookup_ne);
    by rewrite ?He', ?Ht'.
Qed.

(** X11.  In local mode an accessor hands out the builder's own
    dictionary, not a copy: it reads what a later [require] merges
    in, and after a [clear*] it is no longer the builder's dictionary
    and goes on reading the old contents. *)
Theorem accessor_returns_live_dictionary w self E T :
  local_builder w self E T →
  ∃ l, ResourceProfileBuilder.taskResources self w = Returns l w
    ∧ (∀ g : TaskResourceRequests,
         ∃ w1, ResourceProfileBuilder.require self (IsTaskResourceRequests g) w
               = Returns self w1
               ∧ read_task l w1 = Returns (task_requests g ∪ T) w1)
    ∧ (∃ w1, ResourceProfileBuilder.clearTaskResourceRequests self w
             = Returns tt w1
             ∧ read_task l w1 = Returns T w1
             ∧ builder_task_map self w1 = Returns ∅ w1).
Proof.
  intros (e & t & Hb & He & Ht). exists t. unfold_python.
  rewrite Hb. simpl. split; [done|]. rewrite Ht, Hb. split.
  - intros g. eexists. split; [done|]. simpl. by rewrite lookup_insert_eq.
  - eexists. split; [done|]. simpl. rewrite !lookup_insert_eq. simpl.
    rewrite lookup_insert_eq.
    by rewrite lookup_insert_ne, Ht by (by eapply fresh_lookup_ne).
Qed.
End FurtherSharing.

(** ** Further properties: reads and builds through the engine *)

Section FurtherRemote.
Context `{RemoteSchedulingEngine}.
Implicit Types (w : world) (self : loc) (E : exec_dict) (T : task_dict).

Lemma store_items_elem_of {V} (items : list (string * V)) k v :
  NoDup items.*1 →
  store_items items ∅ !! k = Some v ↔ (k, v) ∈ items.
Proof.
  intros Hnd. rewrite store_items_list_to_map by done.
  symmetry. by apply elem_of_list_to_map.
Qed.

Lemma fresh_subseteq {V} (h : gmap loc V) (v : V) :
  h ⊆ <[fresh (dom h) := v]> h.
Proof. apply insert_subseteq, not_elem_of_dom, is_fresh. Qed.

(** X12.  On a profile backed by a remote handle, each accessor
    asks the engine for the items of the remote map and returns a
    new dictionary holding exactly those items (the keys of a map
    are distinct), leaving every other dictionary as it was; when the
    bridge fails it raises and the store is as before. *)
Theorem remote_profile_reads_through w j :
  (∀ items s, jtaskResourcesJMap j (engine w) = Some (items, s) →
     NoDup items.*1 →
     ∃ l d w', ResourceProfile.taskResources (RemoteProfile j) w = Returns l w'
       ∧ task_heap w !! l = None
       ∧ read_task l w' = Returns d w'
       ∧ (∀ k v, d !! k = Some v ↔ (k, v) ∈ items)
       ∧ task_heap w ⊆ task_heap w' ∧ exec_heap w' = exec_heap w
       ∧ engine w' = s)
  ∧ (∀ items s, jexecutorResourcesJMap j (engine w) = Some (items, s) →
       NoDup items.*1 →
       ∃ l d w', ResourceProfile.executorResources (RemoteProfile j) w
                 = Returns l w'
         ∧ exec_heap w !! l = None
         ∧ read_exec l w' = Returns d w'
         ∧ (∀ k v, d !! k = Some v ↔ (k, v) ∈ items)
         ∧ exec_heap w ⊆ exec_heap w' ∧ task_heap w' = task_heap w
         ∧ engine w' = s)
  ∧ (jtaskResourcesJMap j (engine w) = None →
       ResourceProfile.taskResources (RemoteProfile j) w = Raises BridgeError w)
  ∧ (jexecutorResourcesJMap j (engine w) = None →
       ResourceProfile.executorResources (RemoteProfile j) w
       = Raises BridgeError w).
Proof.
  split_and!.
  - intros items s Hj Hnd. rewrite (remote_profile_taskResources w j items s Hj).
    eexists _, (store_items items ∅), _. split; [done|].
    split; [apply not_elem_of_dom, is_fresh|].
    unfold read_task. simpl. rewrite lookup_insert_eq.
    split; [done|]. split; [intros k v; by apply store_items_elem_of|].
    split; [apply fresh_subseteq|done].
  - intros items s Hj Hnd.
    rewrite (remote_profile_executorResources w j items s Hj).
    eexists _, (store_items items ∅), _. split; [done|].
    split; [apply not_elem_of_dom, is_fresh|].
    unfold read_exec. simpl. rewrite lookup_insert_eq.
    split; [done|]. split; [intros k v; by apply store_items_elem_of|].
    split; [apply fresh_subseteq|done].
  - intros Hj. unfold ResourceProfile.taskResources, bind, remote. by rewrite Hj.
  - intros Hj. unfold ResourceProfile.executorResources, bind, remote.
    by rewrite Hj.
Qed.

(** X13.  On a delegated builder, each accessor asks the engine for
    the items of the remote builder's map and returns a new
    dictionary holding exactly those items, leaving every other
    dictionary and the builder as they were. *)
Theorem delegated_builder_reads_through w self jvm jb :
  builder_heap w !! self = Some (DelegatedBuilder jvm jb) →
  (∀ items s, jtaskResourcesJMap jb (engine w) = Some (items, s) →
     NoDup items.*1 →
     ∃ l d w', ResourceProfileBuilder.taskResources self w = Returns l w'
       ∧ task_heap w !! l = None
       ∧ read_task l w' = Returns d w'
       ∧ (∀ k v, d !! k = Some v ↔ (k, v) ∈ items)
       ∧ task_heap w ⊆ task_heap w' ∧ exec_heap w' = exec_heap w
       ∧ builder_heap w' = builder_heap w ∧ engine w' = s)
  ∧ (∀ items s, jexecutorResourcesJMap jb (engine w) = Some (items, s) →
       NoDup items.*1 →
       ∃ l d w', ResourceProfileBuilder.executorResources self w = Returns l w'
         ∧ exec_heap w !! l = None
         ∧ read_exec l w' = Returns d w'
         ∧ (∀ k v, d !! k = Some v ↔ (k, v) ∈ items)
         ∧ exec_heap w ⊆ exec_heap w' ∧ task_heap w' = task_heap w
         ∧ builder_heap w' = builder_heap w ∧ engine w' = s).
Proof.
  intros Hb. split.
  - intros items s Hj Hnd.
    rewrite (remote_builder_taskResources w self jvm jb items s Hb Hj).
    eexists _, (store_items items ∅), _. split; [done|].
    split; [apply not_elem_of_dom, is_fresh|].
    unfold read_task. simpl. rewrite lookup_insert_eq.
    split; [done|]. split; [intros k v; by apply store_items_elem_of|].
    split; [apply fresh_subseteq|done].
  - intros items s Hj Hnd.
    rewrite (remote_builder_executorResources w self jvm jb items s Hb Hj).
    eexists _, (store_items items ∅), _. split; [done|].
    split; [apply not_elem_of_dom, is_fresh|].
    unfold read_exec. simpl. rewrite lookup_insert_eq.
    split; [done|]. split; [intros k v; by apply store_items_elem_of|].
    split; [apply fresh_subseteq|done].
Qed.

(** X14.  Reading [taskResources] twice on a remote-backed profile,
    the engine answering the same items and keeping its state, gives
    two different dictionaries with the same contents: a read is not
    cached, and changing one returned dictionary cannot change the
    other. *)
Theorem remote_reads_repeat w j items :
  jtaskResourcesJMap j (engine w) = Some (items, engine w) →
  ∃ l1 l2 d w1 w2,
    ResourceProfile.taskResources (RemoteProfile j) w = Returns l1 w1
    ∧ ResourceProfile.taskResources (RemoteProfile j) w1 = Returns l2 w2
    ∧ l1 ≠ l2
    ∧ read_task l1 w2 = Returns d w2
    ∧ read_task l2 w2 = Returns d w2.
Proof.
  intros Hj.
  rewrite (remote_profile_taskResources w j items (engine w) Hj).
  eexists _, _, (store_items items ∅), _, _. split; [done|].
  rewrite (remote_profile_taskResources _ j items (engine w)) by done.
  split; [done|]. simpl.
  assert (Hne : fresh (dom (<[fresh (dom (task_heap w)) := store_items items ∅]>
                              (task_heap w)))
                ≠ fresh (dom (task_heap w))).
  { eapply fresh_lookup_ne. apply lookup_insert_eq. }
  split; [by apply not_eq_sym|].
  unfold read_task. simpl.
  rewrite lookup_insert_eq, lookup_insert_ne, lookup_insert_eq by done. done.
Qed.

(** X15.  On a delegated builder [build] wraps the profile handle the
    engine returns, without touching the Python store, and [id] on
    the result is the identity the engine reports for that handle;
    when the remote build fails, [build] raises the bridge error. *)
Theorem delegated_build_then_id w self jvm jb :
  builder_heap w !! self = Some (DelegatedBuilder jvm jb) →
  (∀ j s, jbuild jb (engine w) = Some (j, s) →
     ResourceProfileBuilder.build self w = Returns (RemoteProfile j) (set_engine s w)
     ∧ ∀ n s', jid j s = Some (n, s') →
         bind (ResourceProfileBuilder.build self) ResourceProfile.id w
         = Returns n (set_engine s' w))
  ∧ (jbuild jb (engine w) = None →
       ResourceProfileBuilder.build self w = Raises BridgeError w).
Proof.
  intros Hb. split.
  - intros j s Hj. unfold_python. rewrite Hb. simpl. rewrite Hj. simpl.
    split; [done|]. intros n s' Hid. by rewrite Hid.
  - intros Hj. unfold_python. rewrite Hb. simpl. by rewrite Hj.
Qed.

(** X16.  On a delegated builder, [require] with a group that has no
    remote handle is [require] with the same group once a remote
    group has been constructed from its requests: the engine sees the
    construction and then the same forwarding call. *)
Theorem require_constructs_then_forwards w self jvm jb :
  builder_heap w !! self = Some (DelegatedBuilder jvm jb) →
  (∀ m : task_dict,
     ResourceProfileBuilder.require self
       (IsTaskResourceRequests (mkTaskResourceRequests None m)) w
     = bind (remote (jnew_TaskResourceRequests jvm m))
         (λ jr, ResourceProfileBuilder.require self
                  (IsTaskResourceRequests (mkTaskResourceRequests (Some jr) m)))
         w)
  ∧ (∀ m : exec_dict,
       ResourceProfileBuilder.require self
         (NotTaskResourceRequests
            (ExecutorGroup (mkExecutorResourceRequests None m))) w
       = bind (remote (jnew_ExecutorResourceRequests jvm m))
           (λ jr, ResourceProfileBuilder.require self
                    (NotTaskResourceRequests
                       (ExecutorGroup (mkExecutorResourceRequests (Some jr) m))))
           w).
Proof.
  intros Hb. split; intros m; unfold_python; rewrite Hb; simpl.
  - destruct (jnew_TaskResourceRequests jvm m (engine w)) as [[jr s]|]; simpl;
      [|done].
    by rewrite Hb.
  - destruct (jnew_ExecutorResourceRequests jvm m (engine w)) as [[jr s]|]; simpl;
      [|done].
    by rewrite Hb.
Qed.
End FurtherRemote.

(** ** The further properties, at the scenarios *)

Section FurtherEvaluated.
#[local] Existing Instance TableEngine.table_engine.

Lemma sample_calls_groups : Forall group_call sample_calls.
Proof. repeat constructor. Defined.

Lemma accumulated_remotely_object :
  builder_heap accumulated_remotely !! 1%positive
  = Some (DelegatedBuilder tt 1%positive).
Proof. reflexivity. Defined.

Lemma init_local_new_builder_witness :
  SparkContext_jvm accumulated = None
  ∧ ∃ self e t w',
      ResourceProfileBuilder.__init__ accumulated = Returns self w'
      ∧ builder_heap accumulated !! self = None
      ∧ exec_heap accumulated !! e = None ∧ task_heap accumulated !! t = None
      ∧ builder_heap w' !! self = Some (LocalBuilder e t)
      ∧ local_builder w' self ∅ ∅
      ∧ engine w' = engine accumulated
      ∧ ∀ b E T, local_builder accumulated b E T → local_builder w' b E T.
Proof.
  split; [reflexivity|].
  exact (init_local_new_builder (H := TableEngine.table_engine)
           accumulated eq_refl).
Defined.

Lemma init_delegated_or_raises_witness :
  SparkContext_jvm session_start = Some tt
  ∧ ∃ self w', ResourceProfileBuilder.__init__ session_start = Returns self w'
               ∧ builder_heap session_start !! self = None
               ∧ builder_heap w' !! self = Some (DelegatedBuilder tt 1%positive)
               ∧ engine w'
                 = TableEngine.State {[ 1%positive := TableEngine.JBuilder ∅ ∅ ]} 0
               ∧ exec_heap w' = exec_heap session_start
               ∧ task_heap w' = task_heap session_start.
Proof.
  split; [reflexivity|].
  exact (init_delegated_or_raises (H := TableEngine.table_engine)
           session_start tt eq_refl).
Defined.

Lemma second_builder_is_independent_witness :
  local_builder accumulated 1
    (executor_requests gpu_executor) (task_requests gpu_task)
  ∧ SparkContext_jvm accumulated = None
  ∧ ∃ b' w1, ResourceProfileBuilder.__init__ accumulated = Returns b' w1
             ∧ b' ≠ 1%positive
             ∧ (∀ cs, local_builder (world_of (run_calls b' cs w1)) 1
                        (executor_requests gpu_executor) (task_requests gpu_task))
             ∧ (∀ cs, local_builder (world_of (run_calls 1 cs w1)) b' ∅ ∅).
Proof.
  split; [exact accumulated_local_builder|]. split; [reflexivity|].
  exact (second_builder_is_independent (H := TableEngine.table_engine)
           accumulated 1%positive _ _ accumulated_local_builder eq_refl).
Defined.

Lemma local_builder_is_pair_of_maps_witness :
  local_builder accumulated 1
    (executor_requests gpu_executor) (task_requests gpu_task)
  ∧ Forall group_call sample_calls
  ∧ ∃ w', run_calls 1 sample_calls accumulated = Returns tt w'
          ∧ builder_executor_map 1 w'
            = Returns (executor_requests cores_executor ∪ ∅) w'
          ∧ builder_task_map 1 w'
            = Returns (task_requests cpus_task ∪ task_requests gpu_task) w'
          ∧ engine w' = engine accumulated.
Proof.
  split; [exact accumulated_local_builder|]. split; [exact sample_calls_groups|].
  exact (local_builder_is_pair_of_maps (H := TableEngine.table_engine)
           1%positive sample_calls accumulated _ _
           accumulated_local_builder sample_calls_groups).
Defined.

Lemma mode_is_fixed_witness :
  builder_heap accumulated_remotely !! 1%positive
  = Some (DelegatedBuilder tt 1%positive)
  ∧ ∃ o', builder_heap (world_of (run_calls 1 sample_calls accumulated_remotely))
            !! 1%positive = Some o'
          ∧ same_mode (DelegatedBuilder tt 1%positive) o'.
Proof.
  split; [exact accumulated_remotely_object|].
  exact (mode_is_fixed (H := TableEngine.table_engine)
           1%positive sample_calls accumulated_remotely 1%positive _
           accumulated_remotely_object).
Defined.

Lemma store_stays_well_formed_witness :
  well_formed local_start
  ∧ is_Some (builder_heap (world_of (ResourceProfileBuilder.__init__ local_start))
               !! 1%positive)
  ∧ well_formed
      (world_of (run_calls 1 sample_calls
                   (world_of (ResourceProfileBuilder.__init__ local_start))))
  ∧ ∀ w', run_calls 1 sample_calls
            (world_of (ResourceProfileBuilder.__init__ local_start))
          ≠ Raises InvalidReference w'.
Proof.
  destruct (store_stays_well_formed (H := TableEngine.table_engine))
    as (Hstart & Hinit & Hcalls).
  assert (Hwf : well_formed local_start) by exact (Hstart None TableEngine.empty).
  assert (Hb : is_Some (builder_heap
                          (world_of (ResourceProfileBuilder.__init__ local_start))
                          !! 1%positive)).
  { exists (LocalBuilder 1 1). reflexivity. }
  split; [exact Hwf|]. split; [exact Hb|].
  exact (Hcalls _ 1%positive sample_calls (Hinit _ Hwf) Hb).
Defined.

Lemma delegated_calls_leave_store_witness :
  delegated_builder accumulated_remotely 1
  ∧ builder_heap (world_of (run_calls 1 sample_calls accumulated_remotely))
    = builder_heap accumulated_remotely
  ∧ exec_heap accumulated_remotely
    ⊆ exec_heap (world_of (run_calls 1 sample_calls accumulated_remotely))
  ∧ task_heap accumulated_remotely
    ⊆ task_heap (world_of (run_calls 1 sample_calls accumulated_remotely)).
Proof.
  split; [exact accumulated_remotely_delegated|].
  exact (delegated_calls_leave_store (H := TableEngine.table_engine)
           1%positive sample_calls accumulated_remotely
           accumulated_remotely_delegated).
Defined.

Lemma gpu_task_nonempty : task_requests gpu_task ≠ ∅.
Proof. apply map_non_empty_singleton. Defined.

Lemma gpu_executor_nonempty : executor_requests gpu_executor ≠ ∅.
Proof. apply map_non_empty_singleton. Defined.

Lemma build_shares_nonempty_dictionaries_witness :
  local_builder accumulated 1
    (executor_requests gpu_executor) (task_requests gpu_task)
  ∧ task_requests gpu_task ≠ ∅
  ∧ executor_requests gpu_executor ≠ ∅
  ∧ (∃ p w1, ResourceProfileBuilder.build 1 accumulated = Returns p w1
             ∧ ∀ g : TaskResourceRequests,
                 ∃ w2, ResourceProfileBuilder.require 1
                         (IsTaskResourceRequests g) w1 = Returns 1%positive w2
                       ∧ profile_task_map p w2
                         = Returns (task_requests g ∪ task_requests gpu_task) w2)
  ∧ (∃ p w1, ResourceProfileBuilder.build 1 accumulated = Returns p w1
             ∧ ∀ g : ExecutorResourceRequests,
                 ∃ w2, ResourceProfileBuilder.require 1
                         (NotTaskResourceRequests (ExecutorGroup g)) w1
                       = Returns 1%positive w2
                       ∧ profile_executor_map p w2
                         = Returns (executor_requests g
                                    ∪ executor_requests gpu_executor) w2).
Proof.
  split; [exact accumulated_local_builder|].
  split; [exact gpu_task_nonempty|]. split; [exact gpu_executor_nonempty|].
  destruct (build_shares_nonempty_dictionaries (H := TableEngine.table_engine)
              accumulated 1%positive _ _ accumulated_local_builder) as [Ht He].
  split; [exact (Ht gpu_task_nonempty)|exact (He gpu_executor_nonempty)].
Defined.

Lemma build_copies_empty_dictionaries_witness :
  local_builder (world_of (ResourceProfileBuilder.__init__ local_start)) 1 ∅ ∅
  ∧ (∃ p w1, ResourceProfileBuilder.build 1
               (world_of (ResourceProfileBuilder.__init__ local_start))
             = Returns p w1
             ∧ ∀ g : TaskResourceRequests,
                 ∃ w2, ResourceProfileBuilder.require 1
                         (IsTaskResourceRequests g) w1 = Returns 1%positive w2
                       ∧ profile_task_map p w2 = Returns ∅ w2)
  ∧ (∃ p w1, ResourceProfileBuilder.build 1
               (world_of (ResourceProfileBuilder.__init__ local_start))
             = Returns p w1
             ∧ ∀ g : ExecutorResourceRequests,
                 ∃ w2, ResourceProfileBuilder.require 1
                         (NotTaskResourceRequests (ExecutorGroup g)) w1
                       = Returns 1%positive w2
                       ∧ profile_executor_map p w2 = Returns ∅ w2).
Proof.
  split; [exact local_start_new_builder|].
  destruct (build_copies_empty_dictionaries (H := TableEngine.table_engine)
              (world_of (ResourceProfileBuilder.__init__ local_start)) 1%positive)
    as [Ht He].
  split; [exact (Ht ∅ local_start_new_builder)
         |exact (He ∅ local_start_new_builder)].
Defined.

Lemma clear_leaves_built_profile_witness :
  local_builder accumulated 1
    (executor_requests gpu_executor) (task_requests gpu_task)
  ∧ ∃ p w1, ResourceProfileBuilder.build 1 accumulated = Returns p w1
    ∧ (∃ w2, ResourceProfileBuilder.clearTaskResourceRequests 1 w1
             = Returns tt w2
             ∧ builder_task_map 1 w2 = Returns ∅ w2
             ∧ profile_task_map p w2 = Returns (task_requests gpu_task) w2
             ∧ profile_executor_map p w2
               = Returns (executor_requests gpu_executor) w2)
    ∧ (∃ w2, ResourceProfileBuilder.clearExecutorResourceRequests 1 w1
             = Returns tt w2
             ∧ builder_executor_map 1 w2 = Returns ∅ w2
             ∧ profile_task_map p w2 = Returns (task_requests gpu_task) w2
             ∧ profile_executor_map p w2
               = Returns (executor_requests gpu_executor) w2).
Proof.
  split; [exact accumulated_local_builder|].
  exact (clear_leaves_built_profile (H := TableEngine.table_engine)
           accumulated 1%positive _ _ accumulated_local_builder).
Defined.

Lemma accessor_returns_live_dictionary_witness :
  local_builder accumulated 1
    (executor_requests gpu_executor) (task_requests gpu_task)
  ∧ ∃ l, ResourceProfileBuilder.taskResources 1 accumulated
         = Returns l accumulated
    ∧ (∀ g : TaskResourceRequests,
         ∃ w1, ResourceProfileBuilder.require 1 (IsTaskResourceRequests g)
                 accumulated
               = Returns 1%positive w1
               ∧ read_task l w1
                 = Returns (task_requests g ∪ task_requests gpu_task) w1)
    ∧ (∃ w1, ResourceProfileBuilder.clearTaskResourceRequests 1 accumulated
             = Returns tt w1
             ∧ read_task l w1 = Returns (task_requests gpu_task) w1
             ∧ builder_task_map 1 w1 = Returns ∅ w1).
Proof.
  split; [exact accumulated_local_builder|].
  exact (accessor_returns_live_dictionary (H := TableEngine.table_engine)
           accumulated 1%positive _ _ accumulated_local_builder).
Defined.

Lemma registered_task_items :
  jtaskResourcesJMap 4%positive (engine registered)
  = Some (map_to_list (task_requests gpu_task), engine registered).
Proof. reflexivity. Defined.

Lemma registered_executor_items :
  jexecutorResourcesJMap 4%positive (engine registered)
  = Some (map_to_list (executor_requests gpu_executor), engine registered).
Proof. reflexivity. Defined.

Lemma remote_profile_reads_through_witness :
  jtaskResourcesJMap 4%positive (engine registered)
  = Some (map_to_list (task_requests gpu_task), engine registered)
  ∧ NoDup (map_to_list (task_requests gpu_task)).*1
  ∧ ∃ l d w', ResourceProfile.taskResources (RemoteProfile 4%positive) registered
              = Returns l w'
      ∧ task_heap registered !! l = None
      ∧ read_task l w' = Returns d w'
      ∧ (∀ k v, d !! k = Some v ↔ (k, v) ∈ map_to_list (task_requests gpu_task))
      ∧ task_heap registered ⊆ task_heap w'
      ∧ exec_heap w' = exec_heap registered
      ∧ engine w' = engine registered.
Proof.
  split; [exact registered_task_items|].
  split; [apply NoDup_fst_map_to_list|].
  exact (proj1 (remote_profile_reads_through (H := TableEngine.table_engine)
                  registered 4%positive)
           _ _ registered_task_items
           (NoDup_fst_map_to_list (task_requests gpu_task))).
Defined.

Lemma accumulated_remotely_task_items :
  jtaskResourcesJMap 1%positive (engine accumulated_remotely)
  = Some (map_to_list (task_requests gpu_task), engine accumulated_remotely).
Proof. reflexivity. Defined.

Lemma delegated_builder_reads_through_witness :
  builder_heap accumulated_remotely !! 1%positive
  = Some (DelegatedBuilder tt 1%positive)
  ∧ jtaskResourcesJMap 1%positive (engine accumulated_remotely)
    = Some (map_to_list (task_requests gpu_task), engine accumulated_remotely)
  ∧ NoDup (map_to_list (task_requests gpu_task)).*1
  ∧ ∃ l d w', ResourceProfileBuilder.taskResources 1 accumulated_remotely
              = Returns l w'
      ∧ task_heap accumulated_remotely !! l = None
      ∧ read_task l w' = Returns d w'
      ∧ (∀ k v, d !! k = Some v ↔ (k, v) ∈ map_to_list (task_requests gpu_task))
      ∧ task_heap accumulated_remotely ⊆ task_heap w'
      ∧ exec_heap w' = exec_heap accumulated_remotely
      ∧ builder_heap w' = builder_heap accumulated_remotely
      ∧ engine w' = engine accumulated_remotely.
Proof.
  split; [exact accumulated_remotely_object|].
  split; [exact accumulated_remotely_task_items|].
  split; [apply NoDup_fst_map_to_list|].
  exact (proj1 (delegated_builder_reads_through (H := TableEngine.table_engine)
                  accumulated_remotely 1%positive tt 1%positive
                  accumulated_remotely_object)
           _ _ accumulated_remotely_task_items
           (NoDup_fst_map_to_list (task_requests gpu_task))).
Defined.

Lemma remote_reads_repeat_witness :
  jtaskResourcesJMap 4%positive (engine registered)
  = Some (map_to_list (task_requests gpu_task), engine registered)
  ∧ ∃ l1 l2 d w1 w2,
      ResourceProfile.taskResources (RemoteProfile 4%positive) registered
      = Returns l1 w1
      ∧ ResourceProfile.taskResources (RemoteProfile 4%positive) w1 = Returns l2 w2
      ∧ l1 ≠ l2
      ∧ read_task l1 w2 = Returns d w2
      ∧ read_task l2 w2 = Returns d w2.
Proof.
  split; [exact registered_task_items|].
  exact (remote_reads_repeat (H := TableEngine.table_engine)
           registered 4%positive _ registered_task_items).
Defined.

Lemma accumulated_remotely_build :
  jbuild 1%positive (engine accumulated_remotely)
  = Some (4%positive, engine registered).
Proof. reflexivity. Defined.

Lemma delegated_build_then_id_witness :
  builder_heap accumulated_remotely !! 1%positive
  = Some (DelegatedBuilder tt 1%positive)
  ∧ jbuild 1%positive (engine accumulated_remotely)
    = Some (4%positive, engine registered)
  ∧ jid 4%positive (engine registered) = Some (0%Z, engine registered)
  ∧ ResourceProfileBuilder.build 1 accumulated_remotely
    = Returns (RemoteProfile 4%positive)
        (set_engine (engine registered) accumulated_remotely)
  ∧ bind (ResourceProfileBuilder.build 1) ResourceProfile.id accumulated_remotely
    = Returns 0%Z (set_engine (engine registered) accumulated_remotely).
Proof.
  split; [exact accumulated_remotely_object|].
  split; [exact accumulated_remotely_build|]. split; [reflexivity|].
  destruct (proj1 (delegated_build_then_id (H := TableEngine.table_engine)
                     accumulated_remotely 1%positive tt 1%positive
                     accumulated_remotely_object)
              _ _ accumulated_remotely_build) as [Hbuild Hid].
  split; [exact Hbuild|]. exact (Hid 0%Z (engine registered) eq_refl).
Defined.

Lemma require_constructs_then_forwards_witness :
  builder_heap accumulated_remotely !! 1%positive
  = Some (DelegatedBuilder tt 1%positive)
  ∧ ResourceProfileBuilder.require 1
      (IsTaskResourceRequests
         (mkTaskResourceRequests None (task_requests cpus_task)))
      accumulated_remotely
    = bind (remote (jnew_TaskResourceRequests tt (task_requests cpus_task)))
        (λ jr, ResourceProfileBuilder.require 1
                 (IsTaskResourceRequests
                    (mkTaskResourceRequests (Some jr) (task_requests cpus_task))))
        accumulated_remotely.
Proof.
  split; [exact accumulated_remotely_object|].
  exact (proj1 (require_constructs_then_forwards (H := TableEngine.table_engine)
                  accumulated_remotely 1%positive tt 1%positive
                  accumulated_remotely_object)
           (task_requests cpus_task)).
Defined.
End FurtherEvaluated.
